(** * The Smartlead webhook bridge ([index.ts]): model and properties

    A shallow embedding of the webhook pipeline of [index.ts]: the JSON
    helpers, the context extractor [extractReplyWebhookContext], the request
    token lookup [extractRequestToken], the deduplication key
    [makeWebhookEventKey], the TTL cache [seenWebhookEvents], the forwarder
    [forwardToOpenClawAgentHook] and the route handler registered by
    [registerSmartleadWebhookRoute].

    Conventions.
    - A JavaScript string is a Rocq [string] holding its UTF-8 bytes.
      [trim] and the [\s] class of the regular expression remove the
      ECMAScript white space and line terminator code points in their UTF-8
      encoding; [toUpperCase] maps the ASCII letters (other bytes are kept).
    - [unknown] values are [option Json]; [None] is [undefined].
    - IEEE doubles, [Number(string)], [String(number)] and [JSON.parse] are
      builtins of the runtime, not code of the repository: they are the
      operations of the class [JsRuntime], and every theorem holds for all
      their implementations.
    - Effects are explicit: the handler maps a request, the readings of the
      outside world and the cache to the list of effects it performs, in
      program order, and the new cache. *)

From Stdlib Require Import ZArith List String Ascii Bool Lia.
From stdpp Require Import gmap strings list pretty.

Local Open Scope Z_scope.

(** ** JavaScript string primitives *)

Module Js.

Definition code (c : ascii) : Z := Z.of_N (N_of_ascii c).

(** TAB, LF, VT, FF, CR and SPACE. *)
Definition is_ascii_space (c : ascii) : bool :=
  let n := code c in ((9 <=? n) && (n <=? 13)) || (n =? 32).

(** U+00A0, encoded on two bytes. *)
Definition is_space2 (a b : ascii) : bool :=
  (code a =? 194) && (code b =? 160).

(** U+1680, U+2000..U+200A, U+2028, U+2029, U+202F, U+205F, U+3000 and
    U+FEFF, encoded on three bytes. *)
Definition is_space3 (a b c : ascii) : bool :=
  let x := code a in let y := code b in let z := code c in
  ((x =? 225) && (y =? 154) && (z =? 128))
  || ((x =? 226) && (y =? 128)
      && (((128 <=? z) && (z <=? 138)) || (z =? 168) || (z =? 169) || (z =? 175)))
  || ((x =? 226) && (y =? 129) && (z =? 159))
  || ((x =? 227) && (y =? 128) && (z =? 128))
  || ((x =? 239) && (y =? 187) && (z =? 191)).

(** Drops the leading white space. With [back = true] the bytes are read
    from the end of the string (the bytes of a code point arrive last byte
    first). *)
Fixpoint dropSpace (back : bool) (s : list ascii) : list ascii :=
  match s with
  | [] => []
  | a :: s1 =>
    if is_ascii_space a then dropSpace back s1
    else
      match s1 with
      | [] => s
      | b :: s2 =>
        if (if back then is_space2 b a else is_space2 a b) then dropSpace back s2
        else
          match s2 with
          | [] => s
          | c :: s3 =>
            if (if back then is_space3 c b a else is_space3 a b c)
            then dropSpace back s3 else s
          end
      end
  end.

Definition trimStart (s : string) : string :=
  string_of_list_ascii (dropSpace false (list_ascii_of_string s)).

(** [String.prototype.trim], on the bytes. *)
Definition trimBytes (s : list ascii) : list ascii :=
  List.rev (dropSpace true (List.rev (dropSpace false s))).

(** [String.prototype.trim]. *)
Definition trim (s : string) : string :=
  string_of_list_ascii (trimBytes (list_ascii_of_string s)).

Definition upper_ascii (c : ascii) : ascii :=
  let n := code c in
  if (97 <=? n) && (n <=? 122) then ascii_of_N (Z.to_N (n - 32)) else c.

(** [String.prototype.toUpperCase]. *)
Fixpoint toUpperCase (s : string) : string :=
  match s with
  | EmptyString => EmptyString
  | String c s' => String (upper_ascii c) (toUpperCase s')
  end.

Definition lower_ascii (c : ascii) : ascii :=
  let n := code c in
  if (65 <=? n) && (n <=? 90) then ascii_of_N (Z.to_N (n + 32)) else c.

(** [String.prototype.toLowerCase]. *)
Fixpoint toLowerCase (s : string) : string :=
  match s with
  | EmptyString => EmptyString
  | String c s' => String (lower_ascii c) (toLowerCase s')
  end.

(** JavaScript truthiness of a string: it is not empty. *)
Definition nonEmpty (s : string) : bool :=
  match s with EmptyString => false | String _ _ => true end.

(** [a || b] on strings. *)
Definition orElse (a b : string) : string := if nonEmpty a then a else b.

(** [/^Bearer\s+/i]: on a match, the text that follows the matched prefix
    (the keyword and the whole run of white space after it). *)
Definition matchBearer (auth : string) : option string :=
  match auth with
  | String b (String e (String a (String r (String e' (String r' rest))))) =>
    if String.eqb
         (toUpperCase (String b (String e (String a (String r (String e' (String r' "")))))))
         "BEARER"
    then
      let after := trimStart rest in
      if Nat.ltb (String.length after) (String.length rest) then Some after else None
    else None
  | _ => None
  end.

(** [Array.prototype.join] on strings. *)
Fixpoint join (sep : string) (parts : list string) : string :=
  match parts with
  | [] => ""
  | [p] => p
  | p :: ps => p +:+ sep +:+ join sep ps
  end.

End Js.

(** ** SHA-256 ([createHash("sha256").update(s).digest("hex")]) *)

Module Sha256.

Definition w32 (x : Z) : Z := x mod 4294967296.

Definition rotr (n x : Z) : Z :=
  Z.lor (Z.shiftr x n) (w32 (Z.shiftl x (32 - n))).

Definition ch (x y z : Z) : Z :=
  Z.lxor (Z.land x y) (Z.land (Z.lxor x 4294967295) z).

Definition maj (x y z : Z) : Z :=
  Z.lxor (Z.lxor (Z.land x y) (Z.land x z)) (Z.land y z).

Definition bigSigma0 (x : Z) : Z := Z.lxor (Z.lxor (rotr 2 x) (rotr 13 x)) (rotr 22 x).
Definition bigSigma1 (x : Z) : Z := Z.lxor (Z.lxor (rotr 6 x) (rotr 11 x)) (rotr 25 x).
Definition smallSigma0 (x : Z) : Z := Z.lxor (Z.lxor (rotr 7 x) (rotr 18 x)) (Z.shiftr x 3).
Definition smallSigma1 (x : Z) : Z := Z.lxor (Z.lxor (rotr 17 x) (rotr 19 x)) (Z.shiftr x 10).

(** Round constants: the fractional parts of the cube roots of the first
    sixty-four primes. *)
Definition roundConstants : list Z :=
  [ 1116352408; 1899447441; 3049323471; 3921009573; 961987163; 1508970993;
    2453635748; 2870763221; 3624381080; 310598401; 607225278; 1426881987;
    1925078388; 2162078206; 2614888103; 3248222580; 3835390401; 4022224774;
    264347078; 604807628; 770255983; 1249150122; 1555081692; 1996064986;
    2554220882; 2821834349; 2952996808; 3210313671; 3336571891; 3584528711;
    113926993; 338241895; 666307205; 773529912; 1294757372; 1396182291;
    1695183700; 1986661051; 2177026350; 2456956037; 2730485921; 2820302411;
    3259730800; 3345764771; 3516065817; 3600352804; 4094571909; 275423344;
    430227734; 506948616; 659060556; 883997877; 958139571; 1322822218;
    1537002063; 1747873779; 1955562222; 2024104815; 2227730452; 2361852424;
    2428436474; 2756734187; 3204031479; 3329325298 ].

Record state := State { sa : Z; sb : Z; sc : Z; sd : Z; se : Z; sf : Z; sg : Z; sh : Z }.

Definition initial : state :=
  State 1779033703 3144134277 1013904242 2773480762
        1359893119 2600822924 528734635 1541459225.

(** The message schedule, newest word first: from the sixteen words of a
    block to all sixty-four. *)
Fixpoint extend (n : nat) (ws : list Z) : list Z :=
  match n with
  | O => ws
  | S n' =>
    let w := w32 (smallSigma1 (nth 1 ws 0) + nth 6 ws 0
                  + smallSigma0 (nth 14 ws 0) + nth 15 ws 0) in
    extend n' (w :: ws)
  end.

Definition round (s : state) (kw : Z * Z) : state :=
  let t1 := sh s + bigSigma1 (se s) + ch (se s) (sf s) (sg s) + fst kw + snd kw in
  let t2 := bigSigma0 (sa s) + maj (sa s) (sb s) (sc s) in
  State (w32 (t1 + t2)) (sa s) (sb s) (sc s) (w32 (sd s + t1)) (se s) (sf s) (sg s).

Definition addState (s t : state) : state :=
  State (w32 (sa s + sa t)) (w32 (sb s + sb t)) (w32 (sc s + sc t)) (w32 (sd s + sd t))
        (w32 (se s + se t)) (w32 (sf s + sf t)) (w32 (sg s + sg t)) (w32 (sh s + sh t)).

Fixpoint wordsOf (bytes : list Z) : list Z :=
  match bytes with
  | b0 :: b1 :: b2 :: b3 :: rest =>
    (b0 * 16777216 + b1 * 65536 + b2 * 256 + b3) :: wordsOf rest
  | _ => []
  end.

Definition compress (s : state) (block : list Z) : state :=
  let ws := List.rev (extend 48 (List.rev (wordsOf block))) in
  addState s (fold_left round (combine roundConstants ws) s).

Fixpoint blocks (n : nat) (s : state) (bytes : list Z) : state :=
  match n with
  | O => s
  | S n' => blocks n' (compress s (firstn 64 bytes)) (skipn 64 bytes)
  end.

Definition bigEndian64 (x : Z) : list Z :=
  map (fun i => Z.shiftr x (8 * i) mod 256) [7; 6; 5; 4; 3; 2; 1; 0].

Definition pad (bytes : list Z) : list Z :=
  let len := Z.of_nat (List.length bytes) in
  bytes ++ [128] ++ repeat 0 (Z.to_nat ((55 - len) mod 64)) ++ bigEndian64 (8 * len).

Definition hexDigit (d : Z) : ascii :=
  ascii_of_N (Z.to_N (if d <? 10 then 48 + d else 87 + d)).

Definition hexWord (x : Z) : string :=
  string_of_list_ascii
    (map (fun i => hexDigit (Z.shiftr x (4 * i) mod 16)) [7; 6; 5; 4; 3; 2; 1; 0]).

Definition bytesOf (s : string) : list Z := map Js.code (list_ascii_of_string s).

Definition digestHex (s : string) : string :=
  let padded := pad (bytesOf s) in
  let r := blocks (Nat.div (List.length padded) 64) initial padded in
  hexWord (sa r) +:+ hexWord (sb r) +:+ hexWord (sc r) +:+ hexWord (sd r)
  +:+ hexWord (se r) +:+ hexWord (sf r) +:+ hexWord (sg r) +:+ hexWord (sh r).

End Sha256.

(** ** JSON values and the runtime *)

#[local] Set Warnings "-register-all".

Inductive Json (num : Type) : Type :=
| JNull
| JBool (b : bool)
| JNumber (n : num)
| JString (s : string)
| JArray (items : list (Json num))
| JObject (fields : list (string * Json num)).

Arguments JNull {num}.
Arguments JBool {num} b.
Arguments JNumber {num} n.
Arguments JString {num} s.
Arguments JArray {num} items.
Arguments JObject {num} fields.

(** [type JsonObject = Record<string, unknown>]: the properties in insertion
    order, every key at most once. *)
Abbreviation JsonObject num := (list (string * Json num)).

Inductive ParseResult (num : Type) : Type :=
| Parsed (value : Json num)
| SyntaxError (message : string).

Arguments Parsed {num} value.
Arguments SyntaxError {num} message.

(** The builtins the code calls on numbers and on JSON text. *)
Class JsRuntime (num : Type) : Type := {
  (** [Number.isFinite(n)] *)
  isFinite : num -> bool;
  (** [Number(s)] for a string [s] *)
  toNumber : string -> num;
  (** [String(n)], as [Array.prototype.join] renders a number *)
  numberToString : num -> string;
  (** [Boolean(n)]: neither zero nor NaN *)
  numberTruthy : num -> bool;
  (** [Math.floor(n)] of a finite number *)
  floor : num -> Z;
  (** the number of an integer (an HTTP status, a literal) *)
  ofInteger : Z -> num;
  (** [JSON.parse(text)]; [SyntaxError] carries [String(err)] *)
  JSON_parse : string -> ParseResult num
}.

(** ** The request, the outside world and the effects *)

(** A value of [req.headers]. *)
Inductive HeaderValue : Type :=
| HeaderString (value : string)
| HeaderArray (values : list string).

(** [new URL(req.url ?? "/", `http://${host}`)]: the constructor throws on an
    invalid URL, otherwise only [searchParams] is read. *)
Inductive UrlResult : Type :=
| UrlInvalid
| UrlParsed (searchParams : list (string * string)).

Record IncomingMessage : Type := {
  method : option string;
  headers : gmap string HeaderValue;
  url : UrlResult;
  (** the chunks the request stream yields *)
  chunks : list string
}.

(** What [fetch] of the hook URL comes to: a rejection (network error,
    timeout, unreadable body) with its [String(err)], or a response with its
    status and the rendering of its body. *)
Inductive FetchResult : Type :=
| FetchRejected (reason : string)
| FetchResponse (status : Z) (body : string).

Record World : Type := {
  (** [process.env] *)
  env : gmap string string;
  (** [Date.now()] read by [pruneSeenWebhookEvents] *)
  nowPrune : Z;
  (** [Date.now()] read by [seenWebhookEvents.set] *)
  nowSeen : Z;
  hook : FetchResult
}.

(** [trimString] on a value that is a string, [null] or [undefined]. *)
Definition trimStringOrNull (value : option string) : string :=
  match value with
  | Some s => Js.trim s
  | None => ""
  end.

Definition getHeader (req : IncomingMessage) (name : string) : string :=
  match headers req !! Js.toLowerCase name with
  | Some (HeaderArray values) => default "" (head values)
  | Some (HeaderString value) => value
  | None => ""
  end.

(** [url.searchParams.get(name)]; [None] is [null]. *)
Fixpoint searchParam (params : list (string * string)) (name : string) : option string :=
  match params with
  | [] => None
  | (k, v) :: rest => if String.eqb k name then Some v else searchParam rest name
  end.

(** [extractRequestToken]; [None] when [new URL] throws. *)
Definition extractRequestToken (req : IncomingMessage) : option string :=
  match url req with
  | UrlInvalid => None
  | UrlParsed params =>
    let auth := getHeader req "authorization" in
    match Js.matchBearer auth with
    | Some rest => Some (Js.trim rest)
    | None =>
      Some (Js.orElse (trimStringOrNull (searchParam params "token"))
           (Js.orElse (trimStringOrNull (searchParam params "secret"))
           (Js.orElse (trimStringOrNull (Some (getHeader req "x-smartlead-secret")))
                      (trimStringOrNull (Some (getHeader req "x-webhook-secret"))))))
    end
  end.

Section Model.

Context {num : Type} {RT : JsRuntime num}.

(** [obj[key]]; [None] is [undefined]. *)
Fixpoint get (obj : JsonObject num) (key : string) : option (Json num) :=
  match obj with
  | [] => None
  | (k, v) :: rest => if String.eqb k key then Some v else get rest key
  end.

(** JavaScript truthiness of an [unknown] value. *)
Definition truthy (value : option (Json num)) : bool :=
  match value with
  | None | Some JNull => false
  | Some (JBool b) => b
  | Some (JNumber n) => numberTruthy n
  | Some (JString s) => Js.nonEmpty s
  | Some (JArray _) | Some (JObject _) => true
  end.

Definition truthyString (value : option string) : bool :=
  match value with
  | Some s => Js.nonEmpty s
  | None => false
  end.

Definition trimString (value : option (Json num)) : string :=
  match value with
  | Some (JString s) => Js.trim s
  | _ => ""
  end.

Definition asRecord (value : option (Json num)) : JsonObject num :=
  match value with
  | Some (JObject fields) => fields
  | _ => []
  end.

Definition coerceNumber (value : option (Json num)) : option num :=
  match value with
  | Some (JNumber n) => if isFinite n then Some n else None
  | Some (JString s) =>
    if Js.nonEmpty (Js.trim s)
    then let parsed := toNumber s in if isFinite parsed then Some parsed else None
    else None
  | _ => None
  end.

Fixpoint firstNonEmptyString (values : list (option (Json num))) : string :=
  match values with
  | [] => ""
  | value :: rest =>
    let v := trimString value in
    if Js.nonEmpty v then v else firstNonEmptyString rest
  end.

(** [a ?? b] *)
Definition nullish {A : Type} (a b : option A) : option A :=
  match a with
  | Some _ => a
  | None => b
  end.

Definition normalizePath (path : string) : string :=
  let trimmed := Js.trim path in
  if negb (Js.nonEmpty trimmed) then "/"
  else if String.prefix "/" trimmed then trimmed else "/" +:+ trimmed.

Definition DEFAULT_INBOUND_WEBHOOK_PATH : string := "/smartlead/webhook".
Definition DEFAULT_REPLY_EVENT_TYPES : list string := ["EMAIL_REPLY"].
Definition DEFAULT_DEDUPE_TTL_SECONDS : Z := 15 * 60.
Definition MAX_WEBHOOK_BODY_BYTES : Z := 512 * 1024.

(** [Array.from(new Set(values))]: the first occurrence of each value. *)
Fixpoint distinct (seen values : list string) : list string :=
  match values with
  | [] => []
  | v :: rest =>
    if bool_decide (v ∈ seen) then distinct seen rest
    else v :: distinct (v :: seen) rest
  end.

Definition normalizeReplyEventTypes (input : option (Json num)) : list string :=
  let arr :=
    match input with
    | Some (JArray items) => map (fun v => Js.toUpperCase (trimString (Some v))) items
    | _ => map (fun v => Js.toUpperCase (Js.trim v)) DEFAULT_REPLY_EVENT_TYPES
    end in
  let values := List.filter Js.nonEmpty arr in
  match values with
  | [] => DEFAULT_REPLY_EVENT_TYPES
  | _ => distinct [] values
  end.

(** [process.env.NAME] as an [unknown] value. *)
Definition envVar (e : gmap string string) (name : string) : option (Json num) :=
  JString <$> e !! name.

Definition getInboundWebhookPath (cfg : JsonObject num) (e : gmap string string) : string :=
  normalizePath
    (Js.orElse (trimString (get cfg "inboundWebhookPath"))
       (Js.orElse (trimString (envVar e "SMARTLEAD_WEBHOOK_PATH"))
          DEFAULT_INBOUND_WEBHOOK_PATH)).

Definition getWebhookSecret (cfg : JsonObject num) (e : gmap string string) : string :=
  Js.orElse (trimString (get cfg "webhookSecret"))
            (trimString (envVar e "SMARTLEAD_WEBHOOK_SECRET")).

Definition getOpenClawHookUrl (cfg : JsonObject num) (e : gmap string string) : string :=
  Js.orElse (trimString (get cfg "openclawAgentHookUrl"))
            (trimString (envVar e "OPENCLAW_SMARTLEAD_AGENT_HOOK_URL")).

Definition getOpenClawHookToken (cfg : JsonObject num) (e : gmap string string) : string :=
  Js.orElse (trimString (get cfg "openclawHookToken"))
            (trimString (envVar e "OPENCLAW_HOOKS_TOKEN")).

Definition getDedupeTtlSeconds (cfg : JsonObject num) (e : gmap string string) : Z :=
  let n :=
    match nullish (coerceNumber (get cfg "dedupeTtlSeconds"))
                  (coerceNumber (envVar e "SMARTLEAD_DEDUPE_TTL_SECONDS")) with
    | Some n => floor n
    | None => DEFAULT_DEDUPE_TTL_SECONDS
    end in
  Z.max 1 (Z.min 86400 n).

(** ** The context extractor *)

Record ReplyWebhookContext : Type := {
  eventType : string;
  campaignId : option num;
  leadId : option num;
  leadMapId : option num;
  leadEmail : option string;
  responderEmail : option string;
  subject : option string;
  previewText : option string;
  eventTimestamp : option string;
  statsId : option string;
  messageId : option string;
  appUrl : option string;
  description : option string;
  secretKey : option string;
  leadCorrespondence : option (JsonObject num);
  payload : JsonObject num
}.

Definition extractReplyWebhookContext (payload : JsonObject num) : ReplyWebhookContext :=
  let leadCorrespondence := asRecord (get payload "leadCorrespondence") in
  {| eventType :=
       Js.toUpperCase
         (firstNonEmptyString [get payload "event_type"; get payload "eventType"; get payload "type"]);
     campaignId := coerceNumber (get payload "campaign_id");
     leadId := nullish (coerceNumber (get payload "sl_email_lead_id"))
                       (coerceNumber (get payload "lead_id"));
     leadMapId := nullish (coerceNumber (get payload "sl_email_lead_map_id"))
                          (coerceNumber (get payload "lead_map_id"));
     leadEmail :=
       Some (firstNonEmptyString
               [get leadCorrespondence "targetLeadEmail"; get payload "sl_lead_email";
                get payload "email"; get payload "lead_email"]);
     responderEmail :=
       Some (firstNonEmptyString
               [get leadCorrespondence "replyReceivedFrom"; get payload "from_email";
                get payload "reply_from"; get payload "to_email"]);
     subject := Some (firstNonEmptyString [get payload "subject"]);
     previewText :=
       Some (firstNonEmptyString
               [get payload "preview_text"; get payload "preview"; get payload "snippet"]);
     eventTimestamp :=
       Some (firstNonEmptyString
               [get payload "event_timestamp"; get payload "time_replied"; get payload "timestamp"]);
     statsId := Some (firstNonEmptyString [get payload "stats_id"]);
     messageId := Some (firstNonEmptyString [get payload "message_id"]);
     appUrl := Some (firstNonEmptyString [get payload "app_url"; get payload "ui_master_inbox_link"]);
     description := Some (firstNonEmptyString [get payload "description"]);
     secretKey := Some (firstNonEmptyString [get payload "secret_key"]);
     leadCorrespondence :=
       match leadCorrespondence with
       | [] => None
       | _ :: _ => Some leadCorrespondence
       end;
     payload := payload |}.

(** ** The deduplication key and the cache *)

(** The elements of the array that [makeWebhookEventKey] joins. *)
Definition eventKeyParts (ctx : ReplyWebhookContext) : list string :=
  [ eventType ctx;
    match campaignId ctx with Some n => numberToString n | None => "" end;
    match leadId ctx with Some n => numberToString n | None => "" end;
    default "" (leadEmail ctx);
    default "" (eventTimestamp ctx) ].

(** The local [base] of [makeWebhookEventKey]. *)
Definition eventKeyBase (ctx : ReplyWebhookContext) : string :=
  if truthyString (statsId ctx) then default "" (statsId ctx)
  else if truthyString (messageId ctx) then default "" (messageId ctx)
  else Js.join "|" (eventKeyParts ctx).

Definition makeWebhookEventKey (ctx : ReplyWebhookContext) : string :=
  Sha256.digestHex (eventKeyBase ctx).

(** [pruneSeenWebhookEvents(ttlSeconds)] on the map [seenWebhookEvents], with
    [now] the reading of [Date.now()]: the entries with [seenAt < cutoff] are
    deleted. *)
Definition pruneSeenWebhookEvents (ttlSeconds now : Z) (seen : gmap string Z) : gmap string Z :=
  let cutoff := now - ttlSeconds * 1000 in
  filter (fun entry => ¬ (entry.2 < cutoff)) seen.

(** ** The request readers *)

(** [readRequestBody]: the bytes read so far, or the error thrown. *)
Fixpoint readRequestBody (size : Z) (read : string) (rest : list string) : string + string :=
  match rest with
  | [] => inr read
  | chunk :: rest' =>
    let size' := size + Z.of_nat (String.length chunk) in
    if MAX_WEBHOOK_BODY_BYTES <? size'
    then inl ("Error: Payload too large (" +:+ pretty size' +:+ " bytes)")
    else readRequestBody size' (read +:+ chunk) rest'
  end.

(** [readJsonBody]: the payload, or [String(err)] of the error thrown. *)
Definition readJsonBody (req : IncomingMessage) : string + JsonObject num :=
  match readRequestBody 0 "" (chunks req) with
  | inl err => inl err
  | inr raw =>
    if negb (Js.nonEmpty (Js.trim raw)) then inr []
    else
      match JSON_parse raw with
      | SyntaxError err => inl err
      | Parsed parsed => inr (asRecord (Some parsed))
      end
  end.

(** ** The effects of a request *)

Inductive Effect : Type :=
(** [sendJson(res, statusCode, data)] *)
| SendJson (statusCode : Z) (data : Json num)
(** [api.logger.info] of the raw payload *)
| LoggerInfo (payload : JsonObject num)
(** [api.logger.error] *)
| LoggerError (message : string)
(** [seenWebhookEvents.set(key, seenAt)] *)
| SeenSet (key : string) (seenAt : Z)
(** the [fetch] of the hook URL: the POST rendered from the context *)
| Fetch (hookUrl token : string) (replyCtx : ReplyWebhookContext)
(** an exception leaves the handler: its promise rejects, nothing is sent *)
| Uncaught.

Definition okStatus (status : Z) : bool := (200 <=? status) && (status <=? 299).

(** [forwardToOpenClawAgentHook]: the effects, and the status returned or
    [String(err)] of the error thrown. *)
Definition forwardToOpenClawAgentHook
    (cfg : JsonObject num) (w : World) (replyCtx : ReplyWebhookContext)
  : list Effect * (string + Z) :=
  let hookUrl := getOpenClawHookUrl cfg (env w) in
  let token := getOpenClawHookToken cfg (env w) in
  if negb (Js.nonEmpty hookUrl)
  then ([], inl "Error: openclawAgentHookUrl is required for webhook forwarding")
  else if negb (Js.nonEmpty token)
  then ([], inl "Error: openclawHookToken (or OPENCLAW_HOOKS_TOKEN) is required for webhook forwarding")
  else
    ([Fetch hookUrl token replyCtx],
     match hook w with
     | FetchRejected reason => inl reason
     | FetchResponse status body =>
       if okStatus status then inr status
       else inl ("Error: OpenClaw hook HTTP " +:+ pretty status +:+ ": " +:+ body)
     end).

(** ** The route handler *)

Definition orNull {A : Type} (f : A -> Json num) (a : option A) : Json num :=
  match a with
  | Some x => f x
  | None => JNull
  end.

(** [ctx.eventType || other], as a JSON value. *)
Definition eventTypeOr (ctx : ReplyWebhookContext) (other : Json num) : Json num :=
  if Js.nonEmpty (eventType ctx) then JString (eventType ctx) else other.

Definition isReplyEvent (replyEventTypes : list string) (ctx : ReplyWebhookContext) : bool :=
  (Js.nonEmpty (eventType ctx) && bool_decide (eventType ctx ∈ replyEventTypes))
  || (negb (Js.nonEmpty (eventType ctx))
      && (truthyString (previewText ctx)
          || bool_decide (is_Some (leadCorrespondence ctx))
          || truthy (get (payload ctx) "time_replied"))).

(** The handler from the secret check on, once the body is read. *)
Definition handlePayload
    (cfg : JsonObject num) (replyEventTypes : list string) (logRawPayload : bool)
    (req : IncomingMessage) (w : World) (seen : gmap string Z)
    (payload : JsonObject num)
  : list Effect * gmap string Z :=
  let ctx := extractReplyWebhookContext payload in
  let expectedSecret := getWebhookSecret cfg (env w) in
  match extractRequestToken req with
  | None => ([Uncaught], seen)
  | Some providedToken =>
    let providedSecret :=
      firstNonEmptyString [Some (JString providedToken); JString <$> secretKey ctx] in
    if Js.nonEmpty expectedSecret && negb (String.eqb providedSecret expectedSecret)
    then ([SendJson 401 (JObject [("error", JString "invalid_webhook_secret")])], seen)
    else
      let logged := if logRawPayload then [LoggerInfo payload] else [] in
      if negb (isReplyEvent replyEventTypes ctx)
      then
        (logged ++
         [SendJson 202
            (JObject [("ok", JBool true);
                      ("ignored", JBool true);
                      ("reason", JString "unsupported_event_type");
                      ("event_type", eventTypeOr ctx JNull);
                      ("supported_event_types", JArray (map JString replyEventTypes))])],
         seen)
      else
        let dedupeTtlSeconds := getDedupeTtlSeconds cfg (env w) in
        let seen1 := pruneSeenWebhookEvents dedupeTtlSeconds (nowPrune w) seen in
        let dedupeKey := makeWebhookEventKey ctx in
        if bool_decide (is_Some (seen1 !! dedupeKey))
        then
          (logged ++
           [SendJson 200
              (JObject [("ok", JBool true);
                        ("duplicate", JBool true);
                        ("event_key", JString dedupeKey)])],
           seen1)
        else
          let seen2 := <[dedupeKey := nowSeen w]> seen1 in
          match forwardToOpenClawAgentHook cfg w ctx with
          | (effects, inr status) =>
            (logged ++ [SeenSet dedupeKey (nowSeen w)] ++ effects ++
             [SendJson 202
                (JObject [("ok", JBool true);
                          ("forwarded", JBool true);
                          ("event_type", eventTypeOr ctx (JString "EMAIL_REPLY"));
                          ("campaign_id", orNull JNumber (campaignId ctx));
                          ("lead_id", orNull JNumber (leadId ctx));
                          ("lead_email", orNull JString (leadEmail ctx));
                          ("openclaw_status", JNumber (ofInteger status))])],
             seen2)
          | (effects, inl err) =>
            (logged ++ [SeenSet dedupeKey (nowSeen w)] ++ effects ++
             [LoggerError ("[smartlead] webhook forward failed: " +:+ err);
              SendJson 500
                (JObject [("error", JString "hook_forward_failed");
                          ("message", JString err)])],
             seen2)
          end
  end.

(** [registerSmartleadWebhookRoute(api, cfg)]: the handler it registers.
    [startEnv] is [process.env] when the plugin is registered. *)
Definition registerSmartleadWebhookRoute
    (cfg : JsonObject num) (startEnv : gmap string string)
    (req : IncomingMessage) (w : World) (seen : gmap string Z)
  : list Effect * gmap string Z :=
  let path := getInboundWebhookPath cfg startEnv in
  let replyEventTypes := normalizeReplyEventTypes (get cfg "replyEventTypes") in
  let logRawPayload :=
    match get cfg "logWebhookPayload" with
    | Some (JBool true) => true
    | _ => false
    end in
  if String.eqb (Js.toUpperCase (default "" (method req))) "GET"
  then
    ([SendJson 200
        (JObject [("ok", JBool true);
                  ("plugin", JString "smartlead");
                  ("webhookPath", JString path);
                  ("note", JString "POST Smartlead webhook payloads here.")])],
     seen)
  else if negb (String.eqb (Js.toUpperCase (default "" (method req))) "POST")
  then
    ([SendJson 405
        (JObject [("error", JString "method_not_allowed");
                  ("allowed", JArray [JString "GET"; JString "POST"])])],
     seen)
  else
    match readJsonBody req with
    | inl err =>
      ([SendJson 400 (JObject [("error", JString "invalid_json"); ("message", JString err)])],
       seen)
    | inr payload => handlePayload cfg replyEventTypes logRawPayload req w seen payload
    end.

End Model.

(** ** Observations on the effects *)

Section Observations.

Context {num : Type} {RT : JsRuntime num}.

(** [data[key]] of a response body. *)
Definition field (data : Json num) (key : string) : option (Json num) :=
  match data with
  | JObject fields => get fields key
  | _ => None
  end.

(** The status codes of the responses sent, in order. *)
Definition statuses (effects : list (Effect (num := num))) : list Z :=
  omap (fun e => match e with SendJson status _ => Some status | _ => None end) effects.

(** The writes to the cache, in order. *)
Definition cacheWrites (effects : list (Effect (num := num))) : list (string * Z) :=
  omap (fun e => match e with SeenSet key seenAt => Some (key, seenAt) | _ => None end) effects.

(** The outbound forward calls, in order. *)
Definition fetches (effects : list (Effect (num := num))) : list (Effect (num := num)) :=
  List.filter (fun e => match e with Fetch _ _ _ => true | _ => false end) effects.

Definition isPost (req : IncomingMessage) : bool :=
  String.eqb (Js.toUpperCase (default "" (method req))) "POST".

(** The token the handler compares with the configured secret. *)
Definition providedSecret (providedToken : string) (payload : JsonObject num) : string :=
  firstNonEmptyString
    [Some (JString providedToken);
     JString (num := num) <$> secretKey (extractReplyWebhookContext payload)].

(** The secret check lets the request through. *)
Definition secretPasses
    (cfg : JsonObject num) (w : World) (providedToken : string) (payload : JsonObject num) : bool :=
  negb (Js.nonEmpty (getWebhookSecret cfg (env w))
        && negb (String.eqb (providedSecret providedToken payload) (getWebhookSecret cfg (env w)))).

(** The number of bytes of a body. *)
Definition bodySize (body : list string) : Z :=
  fold_right (fun chunk n => Z.of_nat (String.length chunk) + n) 0 body.

(** The text of a body: its chunks, concatenated. *)
Definition bodyText (body : list string) : string :=
  fold_left String.append body "".

(** [logRawPayload] of [registerSmartleadWebhookRoute]. *)
Definition logsPayload (cfg : JsonObject num) : bool :=
  match get cfg "logWebhookPayload" with
  | Some (JBool true) => true
  | _ => false
  end.

Definition logged (cfg : JsonObject num) (payload : JsonObject num) : list (Effect (num := num)) :=
  if logsPayload cfg then [LoggerInfo payload] else [].

(** A POST request that passes body reading, the secret check and the event
    type filter: it reaches the deduplication step with [payload]. *)
Definition reachesDedup
    (cfg : JsonObject num) (req : IncomingMessage) (w : World) (payload : JsonObject num) : Prop :=
  isPost req = true
  ∧ readJsonBody req = inr payload
  ∧ (∃ providedToken, extractRequestToken req = Some providedToken
                      ∧ secretPasses cfg w providedToken payload = true)
  ∧ isReplyEvent (normalizeReplyEventTypes (get cfg "replyEventTypes"))
                 (extractReplyWebhookContext payload) = true.

(** The cache after the pruning of a request. *)
Definition pruned (cfg : JsonObject num) (w : World) (seen : gmap string Z) : gmap string Z :=
  pruneSeenWebhookEvents (getDedupeTtlSeconds cfg (env w)) (nowPrune w) seen.

(** The deduplication key of a payload. *)
Definition keyOf (payload : JsonObject num) : string :=
  makeWebhookEventKey (extractReplyWebhookContext payload).

(** The key of [payload] is not in the cache once it is pruned: the request
    is not a duplicate. *)
Definition fresh
    (cfg : JsonObject num) (w : World) (seen : gmap string Z) (payload : JsonObject num) : Prop :=
  pruned cfg w seen !! keyOf payload = None.


(** The second request arrives within the TTL window of an entry recorded at
    [seenAt]: the pruning of the second request keeps the entry. *)
Definition withinTtl (cfg : JsonObject num) (w : World) (seenAt : Z) : Prop :=
  nowPrune w - getDedupeTtlSeconds cfg (env w) * 1000 ≤ seenAt.

End Observations.

(** ** A sample runtime

    The examples run on it. Its numbers are the integers, NaN and the two
    infinities; [Number(s)] reads the decimal integers and [Infinity], and
    any other string as NaN. Its [JSON.parse] reads the documents made of
    objects, arrays, strings with the escapes of the quote, the backslash,
    the slash, the line feed, the tab and the carriage return, integers and
    the three literals, as JavaScript does; any other text is a syntax
    error. *)

Module Sample.

Inductive IntNumber : Type :=
| Int (z : Z)
| NaN
| Infinity (negative : bool).

Definition digitValue (c : ascii) : option Z :=
  let n := Js.code c in
  if (48 <=? n) && (n <=? 57) then Some (n - 48) else None.

Fixpoint readDigits (acc : Z) (count : nat) (s : string) : Z * nat * string :=
  match s with
  | EmptyString => (acc, count, s)
  | String c rest =>
    match digitValue c with
    | Some d => readDigits (10 * acc + d) (S count) rest
    | None => (acc, count, s)
    end
  end.

Definition unsignedInteger (s : string) : option Z :=
  match readDigits 0 0 s with
  | (z, S _, EmptyString) => Some z
  | _ => None
  end.

Definition sampleToNumber (s : string) : IntNumber :=
  let t := Js.trim s in
  match t with
  | EmptyString => Int 0
  | String "-" rest =>
    if String.eqb rest "Infinity" then Infinity true
    else match unsignedInteger rest with Some z => Int (- z) | None => NaN end
  | String "+" rest =>
    if String.eqb rest "Infinity" then Infinity false
    else match unsignedInteger rest with Some z => Int z | None => NaN end
  | _ =>
    if String.eqb t "Infinity" then Infinity false
    else match unsignedInteger t with Some z => Int z | None => NaN end
  end.

Definition sampleToString (n : IntNumber) : string :=
  match n with
  | Int z => pretty z
  | NaN => "NaN"
  | Infinity true => "-Infinity"
  | Infinity false => "Infinity"
  end.

(** A JSON integer without its sign: no leading zero. *)
Definition readInteger (s : string) : option (Z * string) :=
  match s with
  | String c (String d _) =>
    if (Js.code c =? 48) && bool_decide (is_Some (digitValue d)) then None
    else match readDigits 0 0 s with (z, S _, rest) => Some (z, rest) | _ => None end
  | _ => match readDigits 0 0 s with (z, S _, rest) => Some (z, rest) | _ => None end
  end.

Fixpoint skipWs (s : string) : string :=
  match s with
  | String c rest =>
    if (Js.code c =? 32) || (Js.code c =? 9) || (Js.code c =? 10) || (Js.code c =? 13)
    then skipWs rest else s
  | EmptyString => s
  end.

(** The characters of a string literal after its opening quote. *)
Fixpoint readString (acc : string) (s : string) : option (string * string) :=
  match s with
  | EmptyString => None
  | String c rest =>
    if Js.code c =? 34 then Some (acc, rest)
    else if Js.code c =? 92 then
      match rest with
      | String e rest' =>
        let unescaped :=
          if (Js.code e =? 34) || (Js.code e =? 92) || (Js.code e =? 47) then Some e
          else if Js.code e =? 110 then Some (ascii_of_N 10)
          else if Js.code e =? 116 then Some (ascii_of_N 9)
          else if Js.code e =? 114 then Some (ascii_of_N 13)
          else None in
        match unescaped with
        | Some ch => readString (acc +:+ String ch EmptyString) rest'
        | None => None
        end
      | EmptyString => None
      end
    else if Js.code c <? 32 then None
    else readString (acc +:+ String c EmptyString) rest
  end.

Fixpoint stripPrefix (p s : string) : option string :=
  match p, s with
  | EmptyString, _ => Some s
  | String a p', String b s' => if Ascii.eqb a b then stripPrefix p' s' else None
  | String _ _, EmptyString => None
  end.

(** [obj[key] = value] while an object literal is read: a repeated key keeps
    its place and takes the last value. *)
Fixpoint setField (obj : JsonObject IntNumber) (key : string) (value : Json IntNumber)
  : JsonObject IntNumber :=
  match obj with
  | [] => [(key, value)]
  | (k, v) :: rest =>
    if String.eqb k key then (k, value) :: rest else (k, v) :: setField rest key value
  end.

Fixpoint readValue (fuel : nat) (s : string) : option (Json IntNumber * string) :=
  match fuel with
  | O => None
  | S fuel' =>
    match skipWs s with
    | String c rest =>
      if Js.code c =? 123 then
        match skipWs rest with
        | String d rest' =>
          if Js.code d =? 125 then Some (JObject [], rest') else readMembers fuel' [] rest
        | EmptyString => None
        end
      else if Js.code c =? 91 then
        match skipWs rest with
        | String d rest' =>
          if Js.code d =? 93 then Some (JArray [], rest') else readItems fuel' [] rest
        | EmptyString => None
        end
      else if Js.code c =? 34 then
        match readString "" rest with
        | Some (str, rest') => Some (JString str, rest')
        | None => None
        end
      else if Js.code c =? 45 then
        match readInteger rest with
        | Some (z, rest') => Some (JNumber (Int (- z)), rest')
        | None => None
        end
      else
        match stripPrefix "true" (String c rest), stripPrefix "false" (String c rest),
              stripPrefix "null" (String c rest) with
        | Some rest', _, _ => Some (JBool true, rest')
        | _, Some rest', _ => Some (JBool false, rest')
        | _, _, Some rest' => Some (JNull, rest')
        | _, _, _ =>
          match readInteger (String c rest) with
          | Some (z, rest') => Some (JNumber (Int z), rest')
          | None => None
          end
        end
    | EmptyString => None
    end
  end
with readMembers (fuel : nat) (acc : JsonObject IntNumber) (s : string)
  : option (Json IntNumber * string) :=
  match fuel with
  | O => None
  | S fuel' =>
    match skipWs s with
    | String q rest =>
      if Js.code q =? 34 then
        match readString "" rest with
        | Some (key, rest1) =>
          match skipWs rest1 with
          | String colon rest2 =>
            if Js.code colon =? 58 then
              match readValue fuel' rest2 with
              | Some (value, rest3) =>
                match skipWs rest3 with
                | String sep rest4 =>
                  if Js.code sep =? 44 then readMembers fuel' (setField acc key value) rest4
                  else if Js.code sep =? 125 then Some (JObject (setField acc key value), rest4)
                  else None
                | EmptyString => None
                end
              | None => None
              end
            else None
          | EmptyString => None
          end
        | None => None
        end
      else None
    | EmptyString => None
    end
  end
with readItems (fuel : nat) (acc : list (Json IntNumber)) (s : string)
  : option (Json IntNumber * string) :=
  match fuel with
  | O => None
  | S fuel' =>
    match readValue fuel' s with
    | Some (value, rest) =>
      match skipWs rest with
      | String sep rest' =>
        if Js.code sep =? 44 then readItems fuel' (acc ++ [value]) rest'
        else if Js.code sep =? 93 then Some (JArray (acc ++ [value]), rest')
        else None
      | EmptyString => None
      end
    | None => None
    end
  end.

Definition sampleParse (text : string) : ParseResult IntNumber :=
  match readValue (S (String.length text)) text with
  | Some (value, rest) =>
    match skipWs rest with
    | EmptyString => Parsed value
    | String _ _ => SyntaxError "SyntaxError: Unexpected non-whitespace character after JSON"
    end
  | None => SyntaxError "SyntaxError: Unexpected token in JSON"
  end.

#[global] Instance runtime : JsRuntime IntNumber := {
  isFinite n := match n with Int _ => true | _ => false end;
  toNumber := sampleToNumber;
  numberToString := sampleToString;
  numberTruthy n := match n with Int z => negb (z =? 0) | NaN => false | Infinity _ => true end;
  floor n := match n with Int z => z | _ => 0 end;
  ofInteger := Int;
  JSON_parse := sampleParse
}.

(** A configuration with the hook endpoint set and no webhook secret. *)
Definition openConfig : JsonObject IntNumber :=
  [ ("openclawAgentHookUrl", JString "http://127.0.0.1:18789/hooks/agent");
    ("openclawHookToken", JString "hook-token") ].

(** The same with a webhook secret. *)
Definition secretConfig : JsonObject IntNumber :=
  ("webhookSecret", JString "s3cret") :: openConfig.

Definition post (params : list (string * string)) (hdrs : list (string * HeaderValue))
    (body : string) : IncomingMessage :=
  {| method := Some "POST";
     headers := list_to_map hdrs;
     url := UrlParsed params;
     chunks := [body] |}.

Definition world (now : Z) (answer : FetchResult) : World :=
  {| env := ∅; nowPrune := now; nowSeen := now; hook := answer |}.

(** A JSON text, written with the apostrophe for the double quote. *)
Fixpoint json (text : string) : string :=
  match text with
  | EmptyString => EmptyString
  | String c rest =>
    String (if Js.code c =? 39 then ascii_of_N 34 else c) (json rest)
  end.

(** The reply event of the setup script. *)
Definition replyBody : string :=
  json "{'event_type': 'EMAIL_REPLY', 'campaign_id': 12345, 'sl_email_lead_id': 98765, 'sl_lead_email': 'lead@example.com', 'subject': 'Re: Your proposal', 'preview_text': 'Thanks, happy to chat.', 'event_timestamp': '2025-01-15T10:30:00Z'}".

Definition replyPayload : JsonObject IntNumber :=
  [ ("event_type", JString "EMAIL_REPLY");
    ("campaign_id", JNumber (Int 12345));
    ("sl_email_lead_id", JNumber (Int 98765));
    ("sl_lead_email", JString "lead@example.com");
    ("subject", JString "Re: Your proposal");
    ("preview_text", JString "Thanks, happy to chat.");
    ("event_timestamp", JString "2025-01-15T10:30:00Z") ].










(** A message id and no stats id. *)
Definition messageOnlyPayload : JsonObject IntNumber := [ ("message_id", JString "m-1") ].

Definition replyRequest : IncomingMessage := post [] [] replyBody.

(** A request with a secret header and another token in the query. *)
Definition twoTokenRequest : IncomingMessage :=
  post [("token", "from-query")] [("x-smartlead-secret", HeaderString "s3cret")] replyBody.

Definition failing : FetchResult := FetchRejected "TypeError: fetch failed".

Definition answering : FetchResult := FetchResponse 200 "{}".

End Sample.

(** ** The sentences of the specification, as definitions *)

Section Specification.

Context {num : Type} {RT : JsRuntime num}.

(** The first non-empty string of a list of candidates, the empty string when
    there is none. *)
Definition firstOf (candidates : list string) : string :=
  default "" (head (List.filter Js.nonEmpty candidates)).





(** "The hash of the stats identifier when present, otherwise the hash of the
    pipe-joined tuple." *)
Definition claimedFingerprint (ctx : ReplyWebhookContext (num := num)) : string :=
  Sha256.digestHex
    (if truthyString (statsId ctx) then default "" (statsId ctx)
     else Js.join "|" (eventKeyParts ctx)).

(** The token of a bearer-style [Authorization] header. *)
Definition bearerToken (req : IncomingMessage) : string :=
  match Js.matchBearer (getHeader req "authorization") with
  | Some rest => Js.trim rest
  | None => ""
  end.

(** "Bearer-style authorization header first, then a dedicated secret header,
    then a query parameter, and only as a last fallback the payload's secret
    field." *)
Definition claimedToken
    (req : IncomingMessage) (params : list (string * string)) (payload : JsonObject num) : string :=
  firstOf [ bearerToken req;
            Js.trim (getHeader req "x-smartlead-secret");
            Js.trim (getHeader req "x-webhook-secret");
            trimStringOrNull (searchParam params "token");
            trimStringOrNull (searchParam params "secret");
            trimString (get payload "secret_key") ].

(** The sources in the order of the code: a bearer-style header shuts out the
    query parameters and the secret headers, whatever its token. *)
Definition tokenCandidates
    (req : IncomingMessage) (params : list (string * string)) (payload : JsonObject num)
  : list string :=
  match Js.matchBearer (getHeader req "authorization") with
  | Some rest => [ Js.trim rest; trimString (get payload "secret_key") ]
  | None =>
    [ trimStringOrNull (searchParam params "token");
      trimStringOrNull (searchParam params "secret");
      Js.trim (getHeader req "x-smartlead-secret");
      Js.trim (getHeader req "x-webhook-secret");
      trimString (get payload "secret_key") ]
  end.

(** The rendering of an optional number in the joined tuple. *)
Definition numberOrEmpty (n : option num) : string :=
  match n with
  | Some n => numberToString n
  | None => ""
  end.



(** The response is the duplicate acknowledgment. *)
Definition duplicateResponse (effect : Effect (num := num)) : Prop :=
  ∃ data, effect = SendJson 200 data ∧ field data "duplicate" = Some (JBool true).

End Specification.

(** ** Further functions of [index.ts] *)

Module Text.

(** Every byte of the string satisfies [p]. *)
Fixpoint allChars (p : ascii -> bool) (s : string) : bool :=
  match s with
  | EmptyString => true
  | String c rest => p c && allChars p rest
  end.

(** [s.slice(0, n)]; the strings it is applied to hold ASCII characters
    only, so that bytes and code units agree. *)
Fixpoint sliceTo (n : nat) (s : string) : string :=
  match n, s with
  | S n', String c rest => String c (sliceTo n' rest)
  | _, _ => EmptyString
  end.

(** The class [a-zA-Z0-9:_-]. *)
Definition isKeyChar (c : ascii) : bool :=
  let n := Js.code c in
  ((97 <=? n) && (n <=? 122)) || ((65 <=? n) && (n <=? 90)) || ((48 <=? n) && (n <=? 58))
  || (n =? 95) || (n =? 45).

(** The class [0-9a-f]. *)
Definition isLowerHex (c : ascii) : bool :=
  let n := Js.code c in
  ((48 <=? n) && (n <=? 57)) || ((97 <=? n) && (n <=? 102)).

(** [s.replace(/[^a-zA-Z0-9:_-]+/g, "-")]: every run of other bytes becomes
    one hyphen. [inRun] holds when the byte before was replaced. A code
    point outside ASCII is a run of other bytes in UTF-8 as it is a run of
    other code units in UTF-16. *)
Fixpoint replaceOthers (inRun : bool) (s : string) : string :=
  match s with
  | EmptyString => EmptyString
  | String c rest =>
    if isKeyChar c then String c (replaceOthers false rest)
    else if inRun then replaceOthers true rest
    else String (ascii_of_N 45) (replaceOthers true rest)
  end.

Fixpoint dropSlashes (s : list ascii) : list ascii :=
  match s with
  | c :: rest => if Js.code c =? 47 then dropSlashes rest else s
  | [] => []
  end.

(** [s.replace(/\/+$/, "")] *)
Definition stripTrailingSlashes (s : string) : string :=
  string_of_list_ascii (List.rev (dropSlashes (List.rev (list_ascii_of_string s)))).

(** [s.endsWith("/")] *)
Definition endsWithSlash (s : string) : bool :=
  match List.rev (list_ascii_of_string s) with
  | c :: _ => Js.code c =? 47
  | [] => false
  end.

End Text.

Section Further.

Context {num : Type} {RT : JsRuntime num}.

Definition DEFAULT_SMARTLEAD_BASE_URL : string := "https://server.smartlead.ai/api/v1".
Definition DEFAULT_SESSION_KEY_PREFIX : string := "hook:smartlead:reply:".

Definition normalizeBaseUrl (value : string) : string :=
  let trimmed := Js.trim value in
  if negb (Js.nonEmpty trimmed) then DEFAULT_SMARTLEAD_BASE_URL
  else Text.stripTrailingSlashes trimmed.

Definition getSmartleadBaseUrl (cfg : JsonObject num) (e : gmap string string) : string :=
  normalizeBaseUrl
    (Js.orElse (trimString (get cfg "apiBaseUrl"))
       (Js.orElse (trimString (envVar (num := num) e "SMARTLEAD_API_BASE_URL"))
          DEFAULT_SMARTLEAD_BASE_URL)).

Definition sanitizeSessionKeyPart (input : string) : string :=
  Text.sliceTo 80 (Text.replaceOthers false input).

(** The argument of [sanitizeSessionKeyPart] in [buildHookSessionKey]. *)
Definition sessionKeySource (ctx : ReplyWebhookContext (num := num)) : string :=
  if truthyString (statsId ctx) then default "" (statsId ctx)
  else if truthyString (messageId ctx) then default "" (messageId ctx)
  else Text.sliceTo 16 (makeWebhookEventKey ctx).

Definition buildHookSessionKey
    (cfg : JsonObject num) (ctx : ReplyWebhookContext (num := num)) : string :=
  let prefix :=
    Js.orElse (trimString (get cfg "hookSessionKeyPrefix")) DEFAULT_SESSION_KEY_PREFIX in
  let sourcePart := sanitizeSessionKeyPart (sessionKeySource ctx) in
  prefix +:+ sourcePart.

End Further.

(** Requests and payloads of the further examples. *)
Module Cases.





(** A cache with one entry older and one entry younger than the TTL at
    time 1000000. *)
Definition agedCache : gmap string Z :=
  <["old" := 1000]> (<["young" := 999000]> ∅).

Definition getRequest : IncomingMessage :=
  {| method := Some "get"; headers := ∅; url := UrlInvalid; chunks := ["not json"] |}.


End Cases.

(** ** Proof automation *)

(** Closes [status ∉ [s1; ...; sn]] on literals. *)
Ltac not_in_statuses :=
  repeat (apply not_elem_of_cons; split; [lia|]); apply not_elem_of_nil.

(** Closes an equation between closed terms by evaluation. *)
Ltac evaluate := vm_compute; reflexivity.

(** Closes [reachesDedup] at a concrete request. *)
Ltac reaches :=
  unfold reachesDedup; split; [evaluate|];
  split; [evaluate|]; split; [eexists; split; evaluate|evaluate].

(** ** Lemmas on strings *)

Lemma dropSpace_suffix back s : ∃ p, s = p ++ Js.dropSpace back s.
Proof.
  remember (List.length s) as n eqn:Hn. revert s Hn.
  induction n as [n IH] using lt_wf_ind. intros s Hn.
  destruct s as [|a s1]; [by exists []|]. simpl.
  destruct (Js.is_ascii_space a).
  { destruct (IH (List.length s1)) with (s := s1) as [p Hp]; [simpl in Hn; lia|done|].
    exists (a :: p). by rewrite <- app_comm_cons, <- Hp. }
  destruct s1 as [|b s2]; [by exists []|].
  destruct (if back then Js.is_space2 b a else Js.is_space2 a b).
  { destruct (IH (List.length s2)) with (s := s2) as [p Hp]; [simpl in Hn; lia|done|].
    exists (a :: b :: p). by rewrite <- !app_comm_cons, <- Hp. }
  destruct s2 as [|c s3]; [by exists []|].
  destruct (if back then Js.is_space3 c b a else Js.is_space3 a b c); [|by exists []].
  destruct (IH (List.length s3)) with (s := s3) as [p Hp]; [simpl in Hn; lia|done|].
  exists (a :: b :: c :: p). by rewrite <- !app_comm_cons, <- Hp.
Qed.

Lemma dropSpace_length back s : (List.length (Js.dropSpace back s) <= List.length s)%nat.
Proof.
  destruct (dropSpace_suffix back s) as [p Hp].
  rewrite Hp at 2. rewrite length_app. lia.
Qed.

Lemma dropSpace_idem back s : Js.dropSpace back (Js.dropSpace back s) = Js.dropSpace back s.
Proof.
  remember (List.length s) as n eqn:Hn. revert s Hn.
  induction n as [n IH] using lt_wf_ind. intros s Hn.
  destruct s as [|a s1]; [done|]. simpl.
  destruct (Js.is_ascii_space a) eqn:Ha.
  { apply (IH (List.length s1)); [simpl in Hn; lia|done]. }
  destruct s1 as [|b s2]; [by simpl; rewrite Ha|].
  destruct (if back then Js.is_space2 b a else Js.is_space2 a b) eqn:Hb.
  { apply (IH (List.length s2)); [simpl in Hn; lia|done]. }
  destruct s2 as [|c s3]; [by simpl; rewrite Ha, Hb|].
  destruct (if back then Js.is_space3 c b a else Js.is_space3 a b c) eqn:Hc.
  { apply (IH (List.length s3)); [simpl in Hn; lia|done]. }
  by simpl; rewrite Ha, Hb, Hc.
Qed.

(** A string without leading white space has no prefix with leading white
    space. *)
Lemma dropSpace_prefix x y :
  Js.dropSpace false (x ++ y) = x ++ y → Js.dropSpace false x = x.
Proof.
  intros H.
  assert (Hshort : ∀ r (k : nat), (List.length r + S k = List.length (x ++ y))%nat →
                        Js.dropSpace false (x ++ y) = Js.dropSpace false r → False).
  { intros r k Hlen Heq. pose proof (dropSpace_length false r) as Hle.
    rewrite <- Heq, H in Hle. lia. }
  destruct x as [|a x1]; [done|]. simpl in *.
  destruct (Js.is_ascii_space a) eqn:Ha.
  { exfalso. apply (Hshort (x1 ++ y) 0%nat); [lia|done]. }
  destruct x1 as [|b x2]; [done|]. simpl in *.
  destruct (Js.is_space2 a b) eqn:Hb.
  { exfalso. apply (Hshort (x2 ++ y) 1%nat); [lia|done]. }
  destruct x2 as [|c x3]; [done|]. simpl in *.
  destruct (Js.is_space3 a b c) eqn:Hc; [|done].
  exfalso. apply (Hshort (x3 ++ y) 2%nat); [lia|done].
Qed.

Lemma trimBytes_idem s : Js.trimBytes (Js.trimBytes s) = Js.trimBytes s.
Proof.
  unfold Js.trimBytes.
  set (t := Js.dropSpace false s).
  destruct (dropSpace_suffix true (List.rev t)) as [p Hp].
  assert (Ht : t = List.rev (Js.dropSpace true (List.rev t)) ++ List.rev p).
  { rewrite <- rev_app_distr, <- Hp. by rewrite rev_involutive. }
  assert (Hfix : Js.dropSpace false (List.rev (Js.dropSpace true (List.rev t)))
                 = List.rev (Js.dropSpace true (List.rev t))).
  { apply dropSpace_prefix with (y := List.rev p). rewrite <- Ht.
    apply dropSpace_idem. }
  rewrite Hfix, rev_involutive. by rewrite dropSpace_idem.
Qed.

Lemma trim_idem s : Js.trim (Js.trim s) = Js.trim s.
Proof.
  unfold Js.trim. by rewrite list_ascii_of_string_of_list_ascii, trimBytes_idem.
Qed.

Lemma orElse_empty_r s : Js.orElse s "" = s.
Proof. by destruct s. Qed.

Lemma orElse_assoc a b c : Js.orElse (Js.orElse a b) c = Js.orElse a (Js.orElse b c).
Proof. by destruct a. Qed.

Lemma trim_orElse a b :
  Js.trim a = a → Js.trim b = b → Js.trim (Js.orElse a b) = Js.orElse a b.
Proof. unfold Js.orElse. by destruct (Js.nonEmpty a). Qed.

Lemma firstOf_cons a rest : firstOf (a :: rest) = Js.orElse a (firstOf rest).
Proof. unfold firstOf, Js.orElse. simpl. by destruct (Js.nonEmpty a). Qed.

(** ** Lemmas on the helpers *)

Section HelperLemmas.

Context {num : Type} {RT : JsRuntime num}.

Implicit Types (payload cfg : JsonObject num) (value : option (Json num)).

Lemma trim_empty : Js.trim "" = "".
Proof. reflexivity. Qed.

Lemma trimString_trimmed value : Js.trim (trimString value) = trimString value.
Proof.
  destruct value as [[]|]; simpl; auto using trim_empty, trim_idem.
Qed.

Lemma trimStringOrNull_trimmed (v : option string) :
  Js.trim (trimStringOrNull v) = trimStringOrNull v.
Proof. destruct v; simpl; auto using trim_empty, trim_idem. Qed.

Lemma firstNonEmptyString_firstOf (values : list (option (Json num))) :
  firstNonEmptyString values = firstOf (map trimString values).
Proof.
  induction values as [|v rest IH]; [done|].
  simpl. rewrite firstOf_cons, IH. reflexivity.
Qed.

Lemma firstOf_trimmed (candidates : list string) :
  Forall (fun s => Js.trim s = s) candidates → Js.trim (firstOf candidates) = firstOf candidates.
Proof.
  induction 1 as [|a rest Ha _ IH]; [done|].
  rewrite firstOf_cons. by apply trim_orElse.
Qed.

Lemma firstNonEmptyString_trimmed (values : list (option (Json num))) :
  Js.trim (firstNonEmptyString values) = firstNonEmptyString values.
Proof.
  rewrite firstNonEmptyString_firstOf. apply firstOf_trimmed.
  induction values; constructor; auto using trimString_trimmed.
Qed.

Lemma firstNonEmptyString_single value : firstNonEmptyString [value] = trimString value.
Proof. simpl. by destruct (trimString value). Qed.




(** ** Lemmas on the token *)

Lemma providedSecret_orElse (providedToken : string) payload :
  providedSecret providedToken payload
  = Js.orElse (Js.trim providedToken) (trimString (get payload "secret_key")).
Proof.
  unfold providedSecret.
  cbn [extractReplyWebhookContext secretKey fmap option_fmap option_map firstNonEmptyString].
  change (trimString (Some (JString providedToken))) with (Js.trim providedToken).
  unfold Js.orElse. destruct (Js.nonEmpty (Js.trim providedToken)); [done|].
  pose proof (trimString_trimmed (get payload "secret_key")) as Htrim.
  destruct (trimString (get payload "secret_key")) eqn:Hkey; [done|].
  cbn [Js.nonEmpty trimString]. by rewrite Htrim.
Qed.

Lemma extractRequestToken_parsed req params :
  url req = UrlParsed params →
  ∃ providedToken, extractRequestToken req = Some providedToken
                   ∧ Js.trim providedToken = providedToken
                   ∧ ∀ payload,
                       providedSecret providedToken payload
                       = firstOf (tokenCandidates req params payload).
Proof.
  intros Hurl. unfold extractRequestToken, tokenCandidates. rewrite Hurl.
  destruct (Js.matchBearer (getHeader req "authorization")) as [rest|].
  - eexists. split; [done|]. split; [apply trim_idem|].
    intros payload. rewrite providedSecret_orElse, trim_idem.
    by rewrite !firstOf_cons, orElse_empty_r.
  - cbn [trimStringOrNull].
    set (a := match searchParam params "token" with Some s => Js.trim s | None => "" end).
    set (b := match searchParam params "secret" with Some s => Js.trim s | None => "" end).
    assert (Ha : Js.trim a = a) by apply (trimStringOrNull_trimmed (searchParam params "token")).
    assert (Hb : Js.trim b = b) by apply (trimStringOrNull_trimmed (searchParam params "secret")).
    eexists. split; [done|]. split.
    + repeat apply trim_orElse; auto using trim_idem.
    + intros payload. rewrite providedSecret_orElse.
      rewrite trim_orElse by (repeat apply trim_orElse; auto using trim_idem).
      rewrite !firstOf_cons, orElse_empty_r. by rewrite !orElse_assoc.
Qed.

End HelperLemmas.

(** ** Lemmas on the handler *)

Section HandlerLemmas.

Context {num : Type} {RT : JsRuntime num}.

Implicit Types (payload cfg : JsonObject num) (effects : list (Effect (num := num))).

Lemma statuses_app effects1 effects2 :
  statuses (effects1 ++ effects2) = statuses effects1 ++ statuses effects2.
Proof. apply omap_app. Qed.

Lemma fetches_app effects1 effects2 :
  fetches (effects1 ++ effects2) = fetches effects1 ++ fetches effects2.
Proof. apply List.filter_app. Qed.

Lemma cacheWrites_app effects1 effects2 :
  cacheWrites (effects1 ++ effects2) = cacheWrites effects1 ++ cacheWrites effects2.
Proof. apply omap_app. Qed.

Lemma logged_silent cfg payload :
  statuses (logged cfg payload) = [] ∧ fetches (logged cfg payload) = []
  ∧ cacheWrites (logged cfg payload) = [].
Proof. unfold logged. by destruct (logsPayload cfg). Qed.

(** The forwarder sends no response and writes nothing to the cache; it
    fetches at most once, and exactly once when the hook is configured. *)
Lemma forward_effects cfg w ctx :
  statuses (forwardToOpenClawAgentHook cfg w ctx).1 = []
  ∧ cacheWrites (forwardToOpenClawAgentHook cfg w ctx).1 = []
  ∧ fetches (forwardToOpenClawAgentHook cfg w ctx).1 = (forwardToOpenClawAgentHook cfg w ctx).1
  ∧ (List.length (forwardToOpenClawAgentHook cfg w ctx).1 <= 1)%nat.
Proof.
  unfold forwardToOpenClawAgentHook.
  destruct (Js.nonEmpty (getOpenClawHookUrl cfg (env w))); simpl; [|auto].
  destruct (Js.nonEmpty (getOpenClawHookToken cfg (env w))); simpl; auto.
Qed.


Lemma pruned_lookup cfg w (seen : gmap string Z) key seenAt :
  pruned cfg w seen !! key = Some seenAt
  ↔ seen !! key = Some seenAt ∧ withinTtl cfg w seenAt.
Proof.
  unfold pruned, pruneSeenWebhookEvents, withinTtl.
  rewrite map_lookup_filter_Some. simpl. intuition lia.
Qed.

Lemma isPost_not_get req :
  isPost req = true → String.eqb (Js.toUpperCase (default "" (method req))) "GET" = false.
Proof. unfold isPost. intros H%String.eqb_eq. by rewrite H. Qed.

(** A POST request whose body is read goes on with its payload. *)
Lemma register_post cfg startEnv req w seen payload :
  isPost req = true → readJsonBody req = inr payload →
  registerSmartleadWebhookRoute cfg startEnv req w seen
  = handlePayload cfg (normalizeReplyEventTypes (get cfg "replyEventTypes"))
                  (logsPayload cfg) req w seen payload.
Proof.
  intros Hpost Hbody. unfold registerSmartleadWebhookRoute.
  rewrite (isPost_not_get _ Hpost). unfold isPost in Hpost. rewrite Hpost, Hbody.
  reflexivity.
Qed.

(** The secret check fails: the request is rejected, the cache is untouched. *)
Lemma handlePayload_rejected cfg types logRaw req w seen payload providedToken :
  extractRequestToken req = Some providedToken →
  secretPasses cfg w providedToken payload = false →
  handlePayload cfg types logRaw req w seen payload
  = ([SendJson 401 (JObject [("error", JString "invalid_webhook_secret")])], seen).
Proof.
  intros Htoken Hsecret. unfold handlePayload. rewrite Htoken.
  unfold secretPasses, providedSecret in Hsecret. apply negb_false_iff in Hsecret.
  by rewrite Hsecret.
Qed.

(** An event that is not a reply event is acknowledged as ignored. *)
Lemma handlePayload_ignored cfg types req w seen payload providedToken :
  extractRequestToken req = Some providedToken →
  secretPasses cfg w providedToken payload = true →
  isReplyEvent types (extractReplyWebhookContext payload) = false →
  handlePayload cfg types (logsPayload cfg) req w seen payload
  = (logged cfg payload ++
     [SendJson 202
        (JObject [("ok", JBool true);
                  ("ignored", JBool true);
                  ("reason", JString "unsupported_event_type");
                  ("event_type", eventTypeOr (extractReplyWebhookContext payload) JNull);
                  ("supported_event_types", JArray (map JString types))])],
     seen).
Proof.
  intros Htoken Hsecret Hreply. unfold handlePayload. rewrite Htoken.
  unfold secretPasses, providedSecret in Hsecret. apply negb_true_iff in Hsecret.
  by rewrite Hsecret, Hreply.
Qed.

(** A request that reaches the deduplication step with a key of the pruned
    cache is answered as a duplicate. *)
Lemma run_duplicate cfg startEnv req w seen payload :
  reachesDedup cfg req w payload → is_Some (pruned cfg w seen !! keyOf payload) →
  registerSmartleadWebhookRoute cfg startEnv req w seen
  = (logged cfg payload ++
     [SendJson 200
        (JObject [("ok", JBool true);
                  ("duplicate", JBool true);
                  ("event_key", JString (keyOf payload))])],
     pruned cfg w seen).
Proof.
  intros (Hpost & Hbody & (providedToken & Htoken & Hsecret) & Hreply) Hseen.
  rewrite (register_post _ _ _ _ _ _ Hpost Hbody). unfold handlePayload. rewrite Htoken.
  unfold secretPasses, providedSecret in Hsecret. apply negb_true_iff in Hsecret.
  rewrite Hsecret, Hreply. simpl.
  fold (pruned cfg w seen). fold (keyOf payload).
  by rewrite bool_decide_eq_true_2.
Qed.

(** A request that reaches the deduplication step with a new key records the
    key, runs the forwarder, and answers last. *)
Lemma run_fresh cfg startEnv req w seen payload :
  reachesDedup cfg req w payload → fresh cfg w seen payload →
  registerSmartleadWebhookRoute cfg startEnv req w seen
  = (logged cfg payload ++ [SeenSet (keyOf payload) (nowSeen w)]
     ++ (forwardToOpenClawAgentHook cfg w (extractReplyWebhookContext payload)).1
     ++ match (forwardToOpenClawAgentHook cfg w (extractReplyWebhookContext payload)).2 with
        | inr status =>
          [SendJson 202
             (JObject [("ok", JBool true);
                       ("forwarded", JBool true);
                       ("event_type",
                        eventTypeOr (extractReplyWebhookContext payload) (JString "EMAIL_REPLY"));
                       ("campaign_id",
                        orNull JNumber (campaignId (extractReplyWebhookContext payload)));
                       ("lead_id", orNull JNumber (leadId (extractReplyWebhookContext payload)));
                       ("lead_email",
                        orNull JString (leadEmail (extractReplyWebhookContext payload)));
                       ("openclaw_status", JNumber (ofInteger status))])]
        | inl err =>
          [LoggerError ("[smartlead] webhook forward failed: " +:+ err);
           SendJson 500
             (JObject [("error", JString "hook_forward_failed"); ("message", JString err)])]
        end,
     <[keyOf payload := nowSeen w]> (pruned cfg w seen)).
Proof.
  intros (Hpost & Hbody & (providedToken & Htoken & Hsecret) & Hreply) Hfresh.
  rewrite (register_post _ _ _ _ _ _ Hpost Hbody). unfold handlePayload. rewrite Htoken.
  unfold secretPasses, providedSecret in Hsecret. apply negb_true_iff in Hsecret.
  rewrite Hsecret, Hreply. simpl.
  fold (pruned cfg w seen). fold (keyOf payload).
  unfold fresh in Hfresh. rewrite bool_decide_eq_false_2 by (rewrite Hfresh; by intros [? ?]).
  fold (logged cfg payload).
  destruct (forwardToOpenClawAgentHook cfg w (extractReplyWebhookContext payload))
    as [effects [err|status]]; reflexivity.
Qed.

(** Once the body is read, no response is a 400. *)
Lemma handlePayload_statuses cfg types logRaw req w seen payload :
  Forall (fun status => status = 401 ∨ status = 202 ∨ status = 200 ∨ status = 500)
         (statuses (handlePayload cfg types logRaw req w seen payload).1).
Proof.
  assert (Hlog : statuses (if logRaw then [LoggerInfo payload] else []) = [])
    by by destruct logRaw.
  pose proof (forward_effects cfg w (extractReplyWebhookContext payload)) as (Hfwd & _).
  unfold handlePayload.
  destruct (extractRequestToken req) as [providedToken|]; [|by constructor].
  destruct (_ && _); [by constructor; [auto|constructor]|].
  destruct (negb _); [|case_bool_decide];
    [| |destruct (forwardToOpenClawAgentHook cfg w (extractReplyWebhookContext payload))
          as [effects [err|status]]];
    cbn [fst] in *; rewrite !statuses_app, ?Hlog, ?Hfwd; simpl;
    (constructor; [auto 6|constructor]).
Qed.

(** Whatever the request, the handler sends one response, or none when the
    exception of an invalid URL leaves it, and fetches at most once. *)
Lemma handler_one_response cfg startEnv req w seen :
  let run := registerSmartleadWebhookRoute cfg startEnv req w seen in
  (List.length (statuses run.1) = 1%nat ∨ run.1 = [Uncaught])
  ∧ (List.length (fetches run.1) <= 1)%nat.
Proof.
  intros run. subst run. unfold registerSmartleadWebhookRoute.
  destruct (String.eqb _ "GET"); [split; [by left|simpl; lia]|].
  destruct (negb _); [split; [by left|simpl; lia]|].
  destruct (readJsonBody req) as [err|payload]; [split; [by left|simpl; lia]|].
  pose proof (logged_silent cfg payload) as (Hlog1 & Hlog2 & _).
  pose proof (forward_effects cfg w (extractReplyWebhookContext payload))
    as (Hf1 & _ & Hf2 & Hf3).
  fold (logsPayload cfg). unfold handlePayload. fold (logged cfg payload).
  destruct (extractRequestToken req) as [providedToken|]; [|split; [by right|simpl; lia]].
  destruct (_ && _); [split; [by left|simpl; lia]|].
  destruct (negb _); [|case_bool_decide];
    [| |destruct (forwardToOpenClawAgentHook cfg w (extractReplyWebhookContext payload))
          as [effects [err|status]]];
    cbn [fst snd] in *;
    rewrite !statuses_app, !fetches_app, ?Hlog1, ?Hlog2, ?Hf1, ?Hf2; simpl;
    (split; [by left|]); rewrite ?length_app; simpl; lia.
Qed.

End HandlerLemmas.

(** ** The response and the forward call (C1, C7, C9) *)

Section ForwardClaims.

Context {num : Type} {RT : JsRuntime num}.

Implicit Types (payload cfg : JsonObject num).


(** C9. The key is written to the cache before the forward call, and the
    write stays when the forwarder throws: the first request is answered 500
    with the key recorded, and a retry of the same event within the TTL
    window is answered as a duplicate and is not forwarded. *)
Theorem C9_key_kept_on_forward_failure cfg startEnv req1 w1 req2 w2 seen payload err :
  reachesDedup cfg req1 w1 payload → fresh cfg w1 seen payload →
  (forwardToOpenClawAgentHook cfg w1 (extractReplyWebhookContext payload)).2 = inl err →
  reachesDedup cfg req2 w2 payload → withinTtl cfg w2 (nowSeen w1) →
  let first := registerSmartleadWebhookRoute cfg startEnv req1 w1 seen in
  let second := registerSmartleadWebhookRoute cfg startEnv req2 w2 first.2 in
  (∃ before after,
      first.1 = before ++ SeenSet (keyOf payload) (nowSeen w1) :: after
      ∧ fetches before = [] ∧ statuses before = [])
  ∧ statuses first.1 = [500]
  ∧ first.2 !! keyOf payload = Some (nowSeen w1)
  ∧ (∃ before response,
        second.1 = before ++ [response] ∧ statuses before = []
        ∧ duplicateResponse response)
  ∧ fetches second.1 = []
  ∧ second.2 !! keyOf payload = Some (nowSeen w1).
Proof.
  intros Hreach1 Hfresh Hfail Hreach2 Hwithin first second.
  assert (Hfirst : first
    = (logged cfg payload ++ [SeenSet (keyOf payload) (nowSeen w1)]
       ++ (forwardToOpenClawAgentHook cfg w1 (extractReplyWebhookContext payload)).1
       ++ [LoggerError ("[smartlead] webhook forward failed: " +:+ err);
           SendJson 500
             (JObject [("error", JString "hook_forward_failed"); ("message", JString err)])],
       <[keyOf payload := nowSeen w1]> (pruned cfg w1 seen))).
  { subst first. rewrite (run_fresh _ startEnv _ _ _ _ Hreach1 Hfresh). by rewrite Hfail. }
  assert (Hkept : pruned cfg w2 first.2 !! keyOf payload = Some (nowSeen w1)).
  { apply pruned_lookup. split; [|done]. rewrite Hfirst. apply lookup_insert_eq. }
  assert (Hsecond : second
    = (logged cfg payload ++
       [SendJson 200
          (JObject [("ok", JBool true); ("duplicate", JBool true);
                    ("event_key", JString (keyOf payload))])],
       pruned cfg w2 first.2)).
  { subst second. apply run_duplicate; [done|]. by rewrite Hkept. }
  destruct (logged_silent cfg payload) as (Hlog1 & Hlog2 & _).
  destruct (forward_effects cfg w1 (extractReplyWebhookContext payload)) as (Hf1 & _).
  rewrite Hsecond, Hfirst. cbn [fst snd]. repeat split.
  - exists (logged cfg payload). eexists. split; [reflexivity|done].
  - rewrite !statuses_app, Hlog1, Hf1. done.
  - apply lookup_insert_eq.
  - exists (logged cfg payload). eexists. split; [reflexivity|]. split; [done|].
    eexists. split; [reflexivity|done].
  - rewrite fetches_app, Hlog2. done.
  - by rewrite Hfirst in Hkept.
Qed.


End ForwardClaims.

(** ** The secret check and the event filter (C3, C5) *)

Section FilterClaims.

Context {num : Type} {RT : JsRuntime num}.

Implicit Types (payload cfg : JsonObject num).

(** The secret check of the handler: with a secret configured, a POST
    request whose compared token is not the secret is answered 401 and
    nothing else happens. *)
Lemma secret_mismatch_rejected cfg startEnv req w seen payload providedToken :
  isPost req = true → readJsonBody req = inr payload →
  extractRequestToken req = Some providedToken →
  Js.nonEmpty (getWebhookSecret cfg (env w)) = true →
  providedSecret providedToken payload ≠ getWebhookSecret cfg (env w) →
  registerSmartleadWebhookRoute cfg startEnv req w seen
  = ([SendJson 401 (JObject [("error", JString "invalid_webhook_secret")])], seen).
Proof.
  intros Hpost Hbody Htoken Hset Hdiff.
  rewrite (register_post _ _ _ _ _ _ Hpost Hbody).
  apply handlePayload_rejected with (providedToken := providedToken); [done|].
  unfold secretPasses. rewrite Hset. apply String.eqb_neq in Hdiff. by rewrite Hdiff.
Qed.

(** C5 (as amended). With a secret configured, the token compared with it is
    the first non-empty one of: the query parameter [token], the query
    parameter [secret], the header [x-smartlead-secret], the header
    [x-webhook-secret], the payload's [secret_key]; a bearer-style
    [Authorization] header replaces the four request sources by its own
    token. A request whose compared token differs from the secret is answered
    401; one whose compared token is the secret is not. *)
Theorem C5_token_precedence cfg startEnv req params w seen payload :
  isPost req = true → readJsonBody req = inr payload → url req = UrlParsed params →
  Js.nonEmpty (getWebhookSecret cfg (env w)) = true →
  let compared := firstOf (tokenCandidates req params payload) in
  let run := registerSmartleadWebhookRoute cfg startEnv req w seen in
  (compared ≠ getWebhookSecret cfg (env w) →
   run = ([SendJson 401 (JObject [("error", JString "invalid_webhook_secret")])], seen))
  ∧ (compared = getWebhookSecret cfg (env w) → 401 ∉ statuses run.1).
Proof.
  intros Hpost Hbody Hurl Hset compared run.
  destruct (extractRequestToken_parsed req params Hurl) as (providedToken & Htoken & _ & Hcmp).
  specialize (Hcmp payload). fold compared in Hcmp. split.
  - intros Hdiff. apply secret_mismatch_rejected with (payload := payload)
      (providedToken := providedToken); try done. by rewrite Hcmp.
  - intros Hsame. subst run. rewrite (register_post _ _ _ _ _ _ Hpost Hbody).
    assert (Hpass : secretPasses cfg w providedToken payload = true).
    { unfold secretPasses. rewrite Hcmp, Hsame. by rewrite String.eqb_refl, andb_false_r. }
    pose proof (logged_silent cfg payload) as (Hlog & _).
    destruct (isReplyEvent (normalizeReplyEventTypes (get cfg "replyEventTypes"))
                (extractReplyWebhookContext payload)) eqn:Hreply.
    + assert (Hreach : reachesDedup cfg req w payload) by (repeat split; eauto).
      rewrite <- (register_post _ startEnv _ _ _ _ Hpost Hbody).
      destruct (pruned cfg w seen !! keyOf payload) as [seenAt|] eqn:Hseen.
      * rewrite (run_duplicate _ startEnv _ _ _ _ Hreach) by by rewrite Hseen.
        cbn [fst]. rewrite statuses_app, Hlog. simpl. not_in_statuses.
      * rewrite (run_fresh _ startEnv _ _ _ _ Hreach Hseen). cbn [fst].
        destruct (forward_effects cfg w (extractReplyWebhookContext payload)) as (Hf & _).
        rewrite !statuses_app, Hlog, Hf.
        destruct (forwardToOpenClawAgentHook cfg w (extractReplyWebhookContext payload)).2;
          simpl; not_in_statuses.
    + rewrite (handlePayload_ignored _ _ _ _ _ _ _ Htoken Hpass Hreply).
      cbn [fst]. rewrite statuses_app, Hlog. simpl. not_in_statuses.
Qed.



End FilterClaims.

(** ** The extractor and the key (C4, C6, C8) *)

Section ExtractorClaims.

Context {num : Type} {RT : JsRuntime num}.

Implicit Types (payload : JsonObject num).

Lemma join_five a b c d e :
  Js.join "|" [a; b; c; d; e] = a +:+ "|" +:+ b +:+ "|" +:+ c +:+ "|" +:+ d +:+ "|" +:+ e.
Proof. reflexivity. Qed.

(** C4 (as amended). The deduplication key is the SHA-256 of the first
    non-empty one of: the stats identifier, the message identifier, the
    pipe-joined tuple (event type, campaign id, lead id, lead email, event
    timestamp). *)
Theorem C4_fingerprint (ctx : ReplyWebhookContext (num := num)) :
  makeWebhookEventKey ctx
  = Sha256.digestHex
      (firstOf [ default "" (statsId ctx);
                 default "" (messageId ctx);
                 eventType ctx +:+ "|" +:+ numberOrEmpty (campaignId ctx)
                 +:+ "|" +:+ numberOrEmpty (leadId ctx)
                 +:+ "|" +:+ default "" (leadEmail ctx)
                 +:+ "|" +:+ default "" (eventTimestamp ctx) ]).
Proof.
  unfold makeWebhookEventKey, eventKeyBase, eventKeyParts. f_equal.
  rewrite join_five, !firstOf_cons, orElse_empty_r. unfold Js.orElse, truthyString, numberOrEmpty.
  destruct (statsId ctx) as [[|]|]; simpl; try done;
    destruct (messageId ctx) as [[|]|]; simpl; done.
Qed.



End ExtractorClaims.

(** ** The body of a request (C10) *)

Section BodyClaims.

Context {num : Type} {RT : JsRuntime num}.

Implicit Types (payload cfg : JsonObject num).

(** A body within the limit is read whole. *)
Lemma readRequestBody_within (body : list string) size read :
  size + bodySize body ≤ MAX_WEBHOOK_BODY_BYTES →
  readRequestBody size read body = inr (fold_left String.append body read).
Proof.
  revert size read. induction body as [|chunk rest IH]; intros size read Hsize; [done|].
  simpl in *.
  assert (0 ≤ bodySize rest).
  { clear. induction rest as [|c r IHr]; simpl; lia. }
  destruct (Z.ltb_spec MAX_WEBHOOK_BODY_BYTES (size + Z.of_nat (String.length chunk))); [lia|].
  apply IH. lia.
Qed.

(** A body over the limit is not read: [readRequestBody] throws. *)
Lemma readRequestBody_over (body : list string) size read :
  size ≤ MAX_WEBHOOK_BODY_BYTES → MAX_WEBHOOK_BODY_BYTES < size + bodySize body →
  ∃ err, readRequestBody size read body = inl err.
Proof.
  revert size read. induction body as [|chunk rest IH]; intros size read Hsize Hover.
  { simpl in Hover. lia. }
  simpl in *.
  destruct (Z.ltb_spec MAX_WEBHOOK_BODY_BYTES (size + Z.of_nat (String.length chunk)));
    [by eexists|].
  apply IH; lia.
Qed.

(** C10. A POST request whose body, within the size limit, is empty, only
    white space, or JSON text of a value that is not an object, is not
    answered 400: [readJsonBody] yields the empty object and the handler goes
    on with it as with any payload. *)
Theorem C10_non_object_body cfg startEnv req w seen :
  isPost req = true →
  bodySize (chunks req) ≤ MAX_WEBHOOK_BODY_BYTES →
  Js.trim (bodyText (chunks req)) = ""
  ∨ (∃ value, JSON_parse (bodyText (chunks req)) = Parsed value
              ∧ ∀ fields, value ≠ JObject fields) →
  let run := registerSmartleadWebhookRoute cfg startEnv req w seen in
  readJsonBody req = inr []
  ∧ run = handlePayload cfg (normalizeReplyEventTypes (get cfg "replyEventTypes"))
                        (logsPayload cfg) req w seen []
  ∧ 400 ∉ statuses run.1.
Proof.
  intros Hpost Hsize Hbody run.
  assert (Hread : readJsonBody req = inr []).
  { unfold readJsonBody. rewrite (readRequestBody_within _ 0 "") by (simpl; lia).
    fold (bodyText (chunks req)).
    destruct (Js.nonEmpty (Js.trim (bodyText (chunks req)))) eqn:Hblank; simpl.
    - destruct Hbody as [Hempty|(value & Hparse & Hshape)].
      + by rewrite Hempty in Hblank.
      + rewrite Hparse. destruct value; try done. by destruct (Hshape fields).
    - done. }
  split; [done|]. subst run. rewrite (register_post _ _ _ _ _ _ Hpost Hread).
  split; [done|].
  pose proof (handlePayload_statuses cfg (normalizeReplyEventTypes (get cfg "replyEventTypes"))
                (logsPayload cfg) req w seen []) as Hall.
  rewrite Forall_forall in Hall. intros Hin. apply Hall in Hin. lia.
Qed.

End BodyClaims.

(** ** The claims at concrete requests, on the sample runtime *)



Lemma C9_witness :
  let w1 := Sample.world 1000 Sample.failing in
  let w2 := Sample.world 61000 Sample.answering in
  let first := registerSmartleadWebhookRoute Sample.openConfig ∅ Sample.replyRequest w1 ∅ in
  let second := registerSmartleadWebhookRoute Sample.openConfig ∅ Sample.replyRequest w2 first.2 in
  withinTtl Sample.openConfig w2 1000
  ∧ statuses first.1 = [500]
  ∧ first.2 !! keyOf Sample.replyPayload = Some 1000
  ∧ statuses second.1 = [200]
  ∧ fetches second.1 = [].
Proof.
  intros w1 w2 first second.
  assert (Hreach1 : reachesDedup Sample.openConfig Sample.replyRequest w1 Sample.replyPayload)
    by reaches.
  assert (Hreach2 : reachesDedup Sample.openConfig Sample.replyRequest w2 Sample.replyPayload)
    by reaches.
  assert (Hfresh : fresh Sample.openConfig w1 ∅ Sample.replyPayload) by evaluate.
  assert (Hwithin : withinTtl Sample.openConfig w2 (nowSeen w1)) by (vm_compute; discriminate).
  assert (Hfail : (forwardToOpenClawAgentHook Sample.openConfig w1
                     (extractReplyWebhookContext Sample.replyPayload)).2
                  = inl "TypeError: fetch failed") by evaluate.
  destruct (C9_key_kept_on_forward_failure Sample.openConfig ∅ Sample.replyRequest w1
              Sample.replyRequest w2 ∅ Sample.replyPayload _
              Hreach1 Hfresh Hfail Hreach2 Hwithin)
    as (_ & Hfirst & Hkey & (before & response & Hsecond & Hquiet & Hdup) & Hfetch & _).
  split; [exact Hwithin|]. split; [exact Hfirst|]. split; [exact Hkey|].
  split; [|exact Hfetch].
  destruct Hdup as (data & -> & _). fold first second in Hsecond |- *.
  rewrite Hsecond, statuses_app, Hquiet. reflexivity.
Defined.




(** The claim C4 as written fails: with a message id and no stats id the key
    is the hash of the message id, not of the joined tuple. *)
Lemma C4_counterexample :
  let ctx := extractReplyWebhookContext Sample.messageOnlyPayload in
  truthyString (statsId ctx) = false
  ∧ makeWebhookEventKey ctx
    = "a461b472cb41a9ec3dee5c90cf8e4a78252c9d82319adf75830031b8c309bfc6"
  ∧ claimedFingerprint ctx
    = "45ca31c3315a5978f40438aab46040d75e99c9b125c2fd01db6e10ac80bef906"
  ∧ makeWebhookEventKey ctx ≠ claimedFingerprint ctx.
Proof.
  intros ctx. split; [evaluate|].
  assert (Hkey : makeWebhookEventKey ctx
                 = "a461b472cb41a9ec3dee5c90cf8e4a78252c9d82319adf75830031b8c309bfc6")
    by evaluate.
  assert (Hclaimed : claimedFingerprint ctx
                     = "45ca31c3315a5978f40438aab46040d75e99c9b125c2fd01db6e10ac80bef906")
    by evaluate.
  split; [exact Hkey|]. split; [exact Hclaimed|]. rewrite Hkey, Hclaimed. discriminate.
Qed.

Lemma C5_witness :
  let w := Sample.world 1000 Sample.answering in
  let params := [("token", "from-query")] in
  readJsonBody Sample.twoTokenRequest = inr Sample.replyPayload
  ∧ getWebhookSecret Sample.secretConfig (env w) = "s3cret"
  ∧ firstOf (tokenCandidates Sample.twoTokenRequest params Sample.replyPayload) = "from-query"
  ∧ registerSmartleadWebhookRoute Sample.secretConfig ∅ Sample.twoTokenRequest w ∅
    = ([SendJson 401 (JObject [("error", JString "invalid_webhook_secret")])], ∅).
Proof.
  intros w params.
  assert (Hpost : isPost Sample.twoTokenRequest = true) by evaluate.
  assert (Hbody : readJsonBody Sample.twoTokenRequest = inr Sample.replyPayload) by evaluate.
  assert (Hurl : url Sample.twoTokenRequest = UrlParsed params) by evaluate.
  assert (Hset : Js.nonEmpty (getWebhookSecret Sample.secretConfig (env w)) = true) by evaluate.
  assert (Hcompared :
    firstOf (tokenCandidates Sample.twoTokenRequest params Sample.replyPayload) = "from-query")
    by evaluate.
  assert (Hsecret : getWebhookSecret Sample.secretConfig (env w) = "s3cret") by evaluate.
  destruct (C5_token_precedence Sample.secretConfig ∅ Sample.twoTokenRequest params w ∅
              Sample.replyPayload Hpost Hbody Hurl Hset) as (Hreject & _).
  split; [exact Hbody|]. split; [exact Hsecret|]. split; [exact Hcompared|].
  apply Hreject. rewrite Hcompared, Hsecret. discriminate.
Defined.

(** The claim C5 as written fails: with the secret in the header
    [x-smartlead-secret] and another token in the query, the claimed order
    compares the header and lets the request through, and the handler
    compares the query parameter and answers 401. *)
Lemma C5_counterexample :
  getWebhookSecret Sample.secretConfig ∅ = "s3cret"
  ∧ claimedToken Sample.twoTokenRequest [("token", "from-query")] Sample.replyPayload = "s3cret"
  ∧ extractRequestToken Sample.twoTokenRequest = Some "from-query"
  ∧ registerSmartleadWebhookRoute Sample.secretConfig ∅ Sample.twoTokenRequest
      (Sample.world 1000 Sample.answering) ∅
    = ([SendJson 401 (JObject [("error", JString "invalid_webhook_secret")])], ∅).
Proof. repeat split; evaluate. Qed.


Lemma C10_witness :
  let w := Sample.world 1000 Sample.answering in
  let req := Sample.post [] [] "[1, 2]" in
  bodySize (chunks req) = 6
  ∧ JSON_parse (bodyText (chunks req)) = Parsed (JArray [JNumber (Sample.Int 1); JNumber (Sample.Int 2)])
  ∧ readJsonBody req = inr []
  ∧ statuses (registerSmartleadWebhookRoute Sample.openConfig ∅ req w ∅).1 = [202]
  ∧ 400 ∉ statuses (registerSmartleadWebhookRoute Sample.openConfig ∅ req w ∅).1.
Proof.
  intros w req.
  assert (Hpost : isPost req = true) by evaluate.
  assert (Hsize : bodySize (chunks req) ≤ MAX_WEBHOOK_BODY_BYTES) by (vm_compute; discriminate).
  assert (Hparse : JSON_parse (bodyText (chunks req))
                   = Parsed (JArray [JNumber (Sample.Int 1); JNumber (Sample.Int 2)]))
    by evaluate.
  destruct (C10_non_object_body Sample.openConfig ∅ req w ∅ Hpost Hsize) as (Hread & _ & Hnot).
  { right. eexists. split; [exact Hparse|]. discriminate. }
  split; [evaluate|]. split; [exact Hparse|]. split; [exact Hread|].
  split; [evaluate|exact Hnot].
Defined.

(** ** Examples *)

Example sha256_empty :
  Sha256.digestHex "" = "e3b0c44298fc1c149afbf4c8996fb92427ae41e4649b934ca495991b7852b855".
Proof. evaluate. Qed.

Example sha256_abc :
  Sha256.digestHex "abc" = "ba7816bf8f01cfea414140de5dae2223b00361a396177a9cb410ff61f20015ad".
Proof. evaluate. Qed.

(** Two blocks: 119 bytes. *)
Example sha256_two_blocks :
  Sha256.digestHex (string_of_list_ascii (repeat (ascii_of_N 97) 119))
  = "31eba51c313a5c08226adf18d4a359cfdfd8d2e816b13f4af952f7ea6584dcfb".
Proof. evaluate. Qed.

Example trim_spaces : Js.trim "  a b  " = "a b".
Proof. reflexivity. Qed.

(** U+FEFF before and U+00A0 after. *)
Example trim_unicode :
  Js.trim (String (ascii_of_N 239) (String (ascii_of_N 187) (String (ascii_of_N 191)
            ("x" +:+ String (ascii_of_N 194) (String (ascii_of_N 160) EmptyString)))))
  = "x".
Proof. reflexivity. Qed.

Example bearer_any_case : Js.matchBearer "bearer   tok " = Some "tok ".
Proof. reflexivity. Qed.

Example bearer_needs_space : Js.matchBearer "BearerX y" = None.
Proof. reflexivity. Qed.

(** The scenario of the setup script: the reply event is forwarded and
    acknowledged, and the same delivery a minute later is a duplicate. *)
Example reply_then_duplicate :
  let first := registerSmartleadWebhookRoute Sample.openConfig ∅ Sample.replyRequest
                 (Sample.world 1000 Sample.answering) ∅ in
  let second := registerSmartleadWebhookRoute Sample.openConfig ∅ Sample.replyRequest
                  (Sample.world 61000 Sample.answering) first.2 in
  eventKeyBase (extractReplyWebhookContext Sample.replyPayload)
  = "EMAIL_REPLY|12345|98765|lead@example.com|2025-01-15T10:30:00Z"
  ∧ first.1
    = [ SeenSet "a1c1a9527e771ea81f3981e6a64ba0a50323242a04225c86bbb7a8cea24c99a5" 1000;
        Fetch "http://127.0.0.1:18789/hooks/agent" "hook-token"
              (extractReplyWebhookContext Sample.replyPayload);
        SendJson 202
          (JObject [("ok", JBool true);
                    ("forwarded", JBool true);
                    ("event_type", JString "EMAIL_REPLY");
                    ("campaign_id", JNumber (Sample.Int 12345));
                    ("lead_id", JNumber (Sample.Int 98765));
                    ("lead_email", JString "lead@example.com");
                    ("openclaw_status", JNumber (Sample.Int 200))]) ]
  ∧ second.1
    = [ SendJson 200
          (JObject [("ok", JBool true);
                    ("duplicate", JBool true);
                    ("event_key",
                     JString "a1c1a9527e771ea81f3981e6a64ba0a50323242a04225c86bbb7a8cea24c99a5")]) ].
Proof. intros first second. split; [evaluate|]. split; evaluate. Qed.

(** After the TTL the same delivery is forwarded again. *)
Example forwarded_again_after_ttl :
  let first := registerSmartleadWebhookRoute Sample.openConfig ∅ Sample.replyRequest
                 (Sample.world 1000 Sample.answering) ∅ in
  statuses (registerSmartleadWebhookRoute Sample.openConfig ∅ Sample.replyRequest
              (Sample.world 901001 Sample.answering) first.2).1 = [202].
Proof. evaluate. Qed.

(** An unsupported event type is ignored. *)
Example campaign_status_ignored :
  registerSmartleadWebhookRoute Sample.openConfig ∅
    (Sample.post [] [] (Sample.json "{'event_type': 'campaign_status'}"))
    (Sample.world 1000 Sample.answering) ∅
  = ([SendJson 202
        (JObject [("ok", JBool true);
                  ("ignored", JBool true);
                  ("reason", JString "unsupported_event_type");
                  ("event_type", JString "CAMPAIGN_STATUS");
                  ("supported_event_types", JArray [JString "EMAIL_REPLY"])])],
     ∅).
Proof. evaluate. Qed.

(** A body over 512 KiB is answered 400 before it is parsed. *)
Example oversized_body_rejected :
  let chunk := string_of_list_ascii (repeat (ascii_of_N 32) (Z.to_nat 262145)) in
  registerSmartleadWebhookRoute Sample.openConfig ∅
    {| method := Some "POST"; headers := ∅; url := UrlParsed []; chunks := [chunk; chunk] |}
    (Sample.world 1000 Sample.answering) ∅
  = ([SendJson 400
        (JObject [("error", JString "invalid_json");
                  ("message", JString "Error: Payload too large (524290 bytes)")])],
     ∅).
Proof. evaluate. Qed.

(** A malformed body is answered 400. *)
Example malformed_body_rejected :
  statuses (registerSmartleadWebhookRoute Sample.openConfig ∅
              (Sample.post [] [] "{") (Sample.world 1000 Sample.answering) ∅).1 = [400].
Proof. evaluate. Qed.

(** The compared token is trimmed: a query token padded with a space passes
    the secret check. *)
Example padded_token_accepted :
  statuses (registerSmartleadWebhookRoute Sample.secretConfig ∅
              (Sample.post [("token", "s3cret ")] [] Sample.replyBody)
              (Sample.world 1000 Sample.answering) ∅).1 = [202].
Proof. evaluate. Qed.

(** A bearer token outranks the query parameter and the secret header. *)
Example bearer_token_first :
  extractRequestToken
    (Sample.post [("token", "from-query")]
       [("authorization", HeaderString "Bearer from-bearer");
        ("x-smartlead-secret", HeaderString "from-header")] "")
  = Some "from-bearer".
Proof. evaluate. Qed.

(** The sample reader on a nested document; a repeated key takes the last
    value. *)
Example sample_parse_nested :
  JSON_parse (Sample.json " {'a': {'b': [true, null, -3]}, 'c': 'x', 'a': 2} ")
  = Parsed (JObject [("a", JNumber (Sample.Int 2)); ("c", JString "x")]).
Proof. evaluate. Qed.

Example sample_parse_error :
  ∃ message, JSON_parse (num := Sample.IntNumber) (Sample.json "{'a': 01}") = SyntaxError message.
Proof. eexists. evaluate. Qed.

(** The correspondence field outranks [sl_lead_email]. *)
Example correspondence_email_first :
  leadEmail (extractReplyWebhookContext
               [ ("sl_lead_email", JString "b@x.com");
                 ("leadCorrespondence",
                  JObject [("targetLeadEmail", JString (num := Sample.IntNumber) "a@x.com")]) ])
  = Some "a@x.com".
Proof. reflexivity. Qed.

(** ** The cache across requests *)

Section CacheProperties.

Context {num : Type} {RT : JsRuntime num}.

Implicit Types (payload cfg : JsonObject num).

(** The three ways a request can leave the cache: untouched; pruned, for a
    duplicate; pruned and extended with the key, for a new event. *)
Lemma run_cases cfg startEnv req w seen :
  let run := registerSmartleadWebhookRoute cfg startEnv req w seen in
  ((∀ payload, ¬ reachesDedup cfg req w payload)
   ∧ run.2 = seen ∧ cacheWrites run.1 = [] ∧ fetches run.1 = [])
  ∨ (∃ payload, reachesDedup cfg req w payload
                ∧ is_Some (pruned cfg w seen !! keyOf payload)
                ∧ run.2 = pruned cfg w seen
                ∧ cacheWrites run.1 = [] ∧ fetches run.1 = [])
  ∨ (∃ payload, reachesDedup cfg req w payload
                ∧ fresh cfg w seen payload
                ∧ run.2 = <[keyOf payload := nowSeen w]> (pruned cfg w seen)
                ∧ cacheWrites run.1 = [(keyOf payload, nowSeen w)]).
Proof.
  intros run. subst run.
  destruct (isPost req) eqn:Hpost.
  2: { left. split; [intros payload (Hp & _); congruence|].
       unfold registerSmartleadWebhookRoute. unfold isPost in Hpost. rewrite Hpost.
       by destruct (String.eqb _ "GET"). }
  destruct (readJsonBody req) as [err|payload] eqn:Hbody.
  { left. split; [intros payload (_ & Hb & _); congruence|].
    unfold registerSmartleadWebhookRoute. rewrite (isPost_not_get _ Hpost).
    unfold isPost in Hpost. by rewrite Hpost, Hbody. }
  rewrite (register_post _ _ _ _ _ _ Hpost Hbody).
  destruct (extractRequestToken req) as [providedToken|] eqn:Htoken.
  2: { left. split; [intros payload' (_ & _ & (tok & Ht & _) & _); congruence|].
       unfold handlePayload. by rewrite Htoken. }
  destruct (secretPasses cfg w providedToken payload) eqn:Hpass.
  2: { left. split.
       - intros payload' (_ & Hb & (tok & Ht & Hs) & _). congruence.
       - by rewrite (handlePayload_rejected _ _ _ _ _ _ _ _ Htoken Hpass). }
  destruct (logged_silent cfg payload) as (_ & Hlog2 & Hlog3).
  destruct (isReplyEvent (normalizeReplyEventTypes (get cfg "replyEventTypes"))
              (extractReplyWebhookContext payload)) eqn:Hreply.
  2: { left. split.
       - intros payload' (_ & Hb & _ & Hr). congruence.
       - rewrite (handlePayload_ignored _ _ _ _ _ _ _ Htoken Hpass Hreply). cbn [fst snd].
         by rewrite cacheWrites_app, fetches_app, Hlog2, Hlog3. }
  assert (Hreach : reachesDedup cfg req w payload) by (repeat split; eauto).
  rewrite <- (register_post _ startEnv _ _ _ _ Hpost Hbody).
  destruct (pruned cfg w seen !! keyOf payload) as [seenAt|] eqn:Hseen.
  - right; left. exists payload.
    rewrite (run_duplicate _ startEnv _ _ _ _ Hreach) by by rewrite Hseen.
    cbn [fst snd]. rewrite Hseen, cacheWrites_app, fetches_app, Hlog2, Hlog3.
    split; [exact Hreach|]. split; [by eexists|]. by repeat split.
  - right; right. exists payload.
    rewrite (run_fresh _ startEnv _ _ _ _ Hreach Hseen). cbn [fst snd].
    destruct (forward_effects cfg w (extractReplyWebhookContext payload)) as (_ & Hf & _).
    rewrite !cacheWrites_app, Hlog3, Hf.
    split; [exact Hreach|]. split; [exact Hseen|]. split; [done|].
    by destruct (forwardToOpenClawAgentHook cfg w (extractReplyWebhookContext payload)).2.
Qed.

(** X1. Whatever the request, the handler keeps every entry of the cache
    that is within the TTL, with its time stamp, and every entry of the new
    cache is an entry of the old one or the one write of this request, made
    at the time of the request: a duplicate delivery does not refresh the
    time stamp of its key. *)
Theorem cache_entries_kept cfg startEnv req w seen :
  let run := registerSmartleadWebhookRoute cfg startEnv req w seen in
  (∀ key seenAt, seen !! key = Some seenAt → withinTtl cfg w seenAt →
                 run.2 !! key = Some seenAt)
  ∧ (∀ key seenAt, run.2 !! key = Some seenAt →
                   seen !! key = Some seenAt
                   ∨ (seenAt = nowSeen w ∧ cacheWrites run.1 = [(key, seenAt)])).
Proof.
  intros run. subst run.
  pose proof (run_cases cfg startEnv req w seen) as Hcases. cbv zeta in Hcases.
  destruct Hcases
    as [(_ & -> & _)|[(payload & _ & _ & -> & _)|(payload & _ & Hfresh & -> & Hwrite)]].
  - split; auto.
  - split.
    + intros key seenAt Hkey Hwithin. by apply pruned_lookup.
    + intros key seenAt Hkey. left. by apply pruned_lookup in Hkey as [? _].
  - split.
    + intros key seenAt Hkey Hwithin.
      assert (Hkept : pruned cfg w seen !! key = Some seenAt) by by apply pruned_lookup.
      rewrite lookup_insert_ne; [done|]. intros <-. unfold fresh in Hfresh. congruence.
    + intros key seenAt Hkey. destruct (decide (keyOf payload = key)) as [<-|Hne].
      * rewrite lookup_insert_eq in Hkey. injection Hkey as <-. right. by rewrite Hwrite.
      * rewrite lookup_insert_ne in Hkey by done. left.
        by apply pruned_lookup in Hkey as [? _].
Qed.


(** X3. A request that does not reach the deduplication step (another
    method, an unreadable body, a wrong secret, an event that is not a reply)
    leaves the cache as it is, not even pruned, and forwards nothing. *)
Theorem stopped_request_leaves_cache cfg startEnv req w seen :
  (∀ payload, ¬ reachesDedup cfg req w payload) →
  let run := registerSmartleadWebhookRoute cfg startEnv req w seen in
  run.2 = seen ∧ fetches run.1 = [] ∧ cacheWrites run.1 = [].
Proof.
  intros Hstopped run. subst run.
  pose proof (run_cases cfg startEnv req w seen) as Hcases. cbv zeta in Hcases.
  destruct Hcases
    as [(_ & Hcache & Hwrite & Hfetch)|[(payload & Hreach & _)|(payload & Hreach & _)]];
    [done|by destruct (Hstopped payload)..].
Qed.

(** X4. The window is counted from the first delivery. Of three deliveries
    of one event, the second within the TTL of the first and the third after
    it, the second is a duplicate and the third is handled as a new event,
    however close it is to the second: its key is written again, at its own
    time, and the forwarder runs. *)
Theorem window_starts_at_first_delivery
    cfg startEnv payload req1 w1 req2 w2 req3 w3 seen :
  reachesDedup cfg req1 w1 payload → reachesDedup cfg req2 w2 payload →
  reachesDedup cfg req3 w3 payload →
  fresh cfg w1 seen payload →
  withinTtl cfg w2 (nowSeen w1) → ¬ withinTtl cfg w3 (nowSeen w1) →
  let first := registerSmartleadWebhookRoute cfg startEnv req1 w1 seen in
  let second := registerSmartleadWebhookRoute cfg startEnv req2 w2 first.2 in
  let third := registerSmartleadWebhookRoute cfg startEnv req3 w3 second.2 in
  statuses second.1 = [200]
  ∧ second.2 !! keyOf payload = Some (nowSeen w1)
  ∧ cacheWrites third.1 = [(keyOf payload, nowSeen w3)]
  ∧ third.2 !! keyOf payload = Some (nowSeen w3)
  ∧ fetches third.1
    = (forwardToOpenClawAgentHook cfg w3 (extractReplyWebhookContext payload)).1
  ∧ 200 ∉ statuses third.1.
Proof.
  intros Hreach1 Hreach2 Hreach3 Hfresh Hin Hout first second third.
  assert (Hfirst : first.2 = <[keyOf payload := nowSeen w1]> (pruned cfg w1 seen)).
  { subst first. by rewrite (run_fresh _ startEnv _ _ _ _ Hreach1 Hfresh). }
  assert (Hkept : pruned cfg w2 first.2 !! keyOf payload = Some (nowSeen w1)).
  { apply pruned_lookup. split; [|done]. rewrite Hfirst. apply lookup_insert_eq. }
  assert (Hsecond : second
    = (logged cfg payload ++
       [SendJson 200
          (JObject [("ok", JBool true); ("duplicate", JBool true);
                    ("event_key", JString (keyOf payload))])],
       pruned cfg w2 first.2)).
  { subst second. apply run_duplicate; [done|]. by rewrite Hkept. }
  assert (Hgone : fresh cfg w3 second.2 payload).
  { unfold fresh. destruct (pruned cfg w3 second.2 !! keyOf payload) as [seenAt|] eqn:Hlook;
      [|done].
    apply pruned_lookup in Hlook as [Hlook Hwithin].
    rewrite Hsecond in Hlook. cbn [snd] in Hlook. rewrite Hkept in Hlook.
    injection Hlook as <-. by destruct Hout. }
  destruct (logged_silent cfg payload) as (Hlog1 & Hlog2 & Hlog3).
  destruct (forward_effects cfg w3 (extractReplyWebhookContext payload)) as (Hf1 & Hf2 & Hf3 & _).
  split; [by rewrite Hsecond; cbn [fst]; rewrite statuses_app, Hlog1|].
  split; [by rewrite Hsecond|].
  subst third. rewrite (run_fresh _ startEnv _ _ _ _ Hreach3 Hgone). cbn [fst snd].
  rewrite !cacheWrites_app, !fetches_app, !statuses_app, Hlog1, Hlog2, Hlog3, Hf1, Hf2, Hf3.
  split; [by destruct (forwardToOpenClawAgentHook cfg w3 _).2|].
  split; [apply lookup_insert_eq|].
  destruct (forwardToOpenClawAgentHook cfg w3 (extractReplyWebhookContext payload)).2; simpl.
  - split; [by rewrite app_nil_r|not_in_statuses].
  - split; [by rewrite app_nil_r|not_in_statuses].
Qed.

End CacheProperties.

(** ** Paths and the responses to requests that are stopped early *)





Lemma nonEmpty_true s : Js.nonEmpty s = true ↔ s ≠ "".
Proof. by destruct s. Qed.

Lemma nonEmpty_false s : Js.nonEmpty s = false ↔ s = "".
Proof. by destruct s. Qed.




Section EarlyResponses.

Context {num : Type} {RT : JsRuntime num}.

Implicit Types (payload cfg : JsonObject num).


Lemma register_bad_body cfg startEnv req w seen err :
  isPost req = true → readJsonBody req = inl err →
  registerSmartleadWebhookRoute cfg startEnv req w seen
  = ([SendJson 400 (JObject [("error", JString "invalid_json"); ("message", JString err)])],
     seen).
Proof.
  intros Hpost Hbody. unfold registerSmartleadWebhookRoute.
  rewrite (isPost_not_get _ Hpost). unfold isPost in Hpost. by rewrite Hpost, Hbody.
Qed.

(** [readJsonBody] throws on a body over the limit, and on a body within the
    limit that is not blank and that [JSON.parse] rejects; on nothing else. *)
Lemma readJsonBody_throws req :
  (∃ err, readJsonBody req = inl err)
  ↔ MAX_WEBHOOK_BODY_BYTES < bodySize (chunks req)
    ∨ (Js.trim (bodyText (chunks req)) ≠ ""
       ∧ ∃ message, JSON_parse (bodyText (chunks req)) = SyntaxError message).
Proof.
  unfold readJsonBody.
  destruct (Z.le_gt_cases (bodySize (chunks req)) MAX_WEBHOOK_BODY_BYTES) as [Hin|Hover].
  - rewrite (readRequestBody_within _ 0 "") by (simpl; lia). fold (bodyText (chunks req)).
    destruct (Js.nonEmpty (Js.trim (bodyText (chunks req)))) eqn:Hblank; simpl.
    + apply nonEmpty_true in Hblank.
      destruct (JSON_parse (bodyText (chunks req))) as [value|message] eqn:Hparse.
      * split; [by intros [? ?]|]. intros [?|[_ [? ?]]]; [lia|done].
      * split; [|by eexists]. intros _. right. split; [done|by eexists].
    + apply nonEmpty_false in Hblank. split; [by intros [? ?]|].
      intros [?|[? _]]; [lia|done].
  - destruct (readRequestBody_over (chunks req) 0 "") as [err Herr]; [done|simpl; lia|].
    rewrite Herr. split; [by left|by eexists].
Qed.

(** X6. A POST request is answered 400 exactly when its body is over 512 KiB,
    or is not blank and is rejected by [JSON.parse]; the response is then
    the only effect, with the error code [invalid_json] in both cases, and
    the cache is untouched. *)
Theorem bad_request_iff cfg startEnv req w seen :
  isPost req = true →
  let run := registerSmartleadWebhookRoute cfg startEnv req w seen in
  (400 ∈ statuses run.1
   ↔ MAX_WEBHOOK_BODY_BYTES < bodySize (chunks req)
     ∨ (Js.trim (bodyText (chunks req)) ≠ ""
        ∧ ∃ message, JSON_parse (bodyText (chunks req)) = SyntaxError message))
  ∧ (400 ∈ statuses run.1 →
     ∃ message,
       run = ([SendJson 400 (JObject [("error", JString "invalid_json");
                                      ("message", JString message)])], seen)).
Proof.
  intros Hpost run. subst run. rewrite <- readJsonBody_throws.
  destruct (readJsonBody req) as [err|payload] eqn:Hbody.
  - rewrite (register_bad_body _ _ _ _ _ _ Hpost Hbody). cbn [fst]. split.
    + split; [by eexists|]. intros _. simpl. apply list_elem_of_here.
    + by eexists.
  - rewrite (register_post _ _ _ _ _ _ Hpost Hbody).
    pose proof (handlePayload_statuses cfg (normalizeReplyEventTypes (get cfg "replyEventTypes"))
                  (logsPayload cfg) req w seen payload) as Hall.
    rewrite Forall_forall in Hall.
    split; [split|]; [intros Hin; apply Hall in Hin; lia|by intros [? ?]
                     |intros Hin; apply Hall in Hin; lia].
Qed.

(** Past the secret check, no response is a 401. *)
Lemma passed_no_401 cfg types req w seen payload providedToken :
  extractRequestToken req = Some providedToken →
  secretPasses cfg w providedToken payload = true →
  401 ∉ statuses (handlePayload cfg types (logsPayload cfg) req w seen payload).1.
Proof.
  intros Htoken Hpass. pose proof (logged_silent cfg payload) as (Hlog & _).
  destruct (forward_effects cfg w (extractReplyWebhookContext payload)) as (Hf & _).
  unfold handlePayload. rewrite Htoken.
  unfold secretPasses, providedSecret in Hpass. apply negb_true_iff in Hpass. rewrite Hpass.
  clear Hpass. fold (logged cfg payload).
  destruct (negb _); [|case_bool_decide];
    [| |destruct (forwardToOpenClawAgentHook cfg w (extractReplyWebhookContext payload))
          as [effects [err|status]]];
    cbn [fst] in *; rewrite !statuses_app, ?Hlog, ?Hf; simpl; not_in_statuses.
Qed.

(** X7. A request is answered 401 exactly when it is a POST request with a
    readable body, a secret is configured, and the compared token is not the
    secret; the 401 is then the only effect. With no secret configured no
    request is answered 401, whatever it carries. *)
Theorem unauthorized_iff cfg startEnv req w seen :
  let run := registerSmartleadWebhookRoute cfg startEnv req w seen in
  (401 ∈ statuses run.1
   ↔ ∃ payload providedToken,
       isPost req = true ∧ readJsonBody req = inr payload
       ∧ extractRequestToken req = Some providedToken
       ∧ getWebhookSecret cfg (env w) ≠ ""
       ∧ providedSecret providedToken payload ≠ getWebhookSecret cfg (env w))
  ∧ (401 ∈ statuses run.1 →
     run = ([SendJson 401 (JObject [("error", JString "invalid_webhook_secret")])], seen))
  ∧ (getWebhookSecret cfg (env w) = "" → 401 ∉ statuses run.1).
Proof.
  intros run. subst run.
  assert (Hiff : 401 ∈ statuses (registerSmartleadWebhookRoute cfg startEnv req w seen).1
    ↔ ∃ payload providedToken,
        isPost req = true ∧ readJsonBody req = inr payload
        ∧ extractRequestToken req = Some providedToken
        ∧ getWebhookSecret cfg (env w) ≠ ""
        ∧ providedSecret providedToken payload ≠ getWebhookSecret cfg (env w)).
  { split.
    - intros Hin.
      destruct (isPost req) eqn:Hpost.
      2: { unfold registerSmartleadWebhookRoute in Hin. unfold isPost in Hpost.
           rewrite Hpost in Hin. destruct (String.eqb _ "GET"); simpl in Hin;
             apply list_elem_of_singleton in Hin; lia. }
      destruct (readJsonBody req) as [err|payload] eqn:Hbody.
      { rewrite (register_bad_body _ _ _ _ _ _ Hpost Hbody) in Hin. simpl in Hin.
        apply list_elem_of_singleton in Hin. lia. }
      rewrite (register_post _ _ _ _ _ _ Hpost Hbody) in Hin.
      destruct (extractRequestToken req) as [providedToken|] eqn:Htoken.
      2: { unfold handlePayload in Hin. rewrite Htoken in Hin. simpl in Hin.
           by apply not_elem_of_nil in Hin. }
      destruct (secretPasses cfg w providedToken payload) eqn:Hpass.
      { by destruct (passed_no_401 cfg (normalizeReplyEventTypes (get cfg "replyEventTypes"))
                       req w seen payload providedToken Htoken Hpass). }
      exists payload, providedToken. repeat split; try done.
      + intros Hnone. unfold secretPasses in Hpass. by rewrite Hnone in Hpass.
      + intros Hsame. unfold secretPasses in Hpass.
        by rewrite Hsame, String.eqb_refl, andb_false_r in Hpass.
    - intros (payload & providedToken & Hpost & Hbody & Htoken & Hset & Hdiff).
      rewrite (secret_mismatch_rejected _ _ _ _ _ _ _ Hpost Hbody Htoken); try done.
      + simpl. apply list_elem_of_here.
      + by apply nonEmpty_true. }
  split; [exact Hiff|]. split.
  - intros (payload & providedToken & Hpost & Hbody & Htoken & Hset & Hdiff)%Hiff.
    apply (secret_mismatch_rejected _ _ _ _ _ _ _ Hpost Hbody Htoken); [|done].
    by apply nonEmpty_true.
  - intros Hnone (payload & providedToken & _ & _ & _ & Hset & _)%Hiff. done.
Qed.

(** X8. A request whose method is not POST (in any letter case) is answered
    at once, whatever its headers, its body and the configured secret: 200
    with the route path for GET, 405 otherwise; the cache is untouched. *)
Theorem other_methods_answered cfg startEnv req w seen :
  isPost req = false →
  let run := registerSmartleadWebhookRoute cfg startEnv req w seen in
  let isGet := String.eqb (Js.toUpperCase (default "" (method req))) "GET" in
  ∃ data,
    run = ([SendJson (if isGet then 200 else 405) data], seen)
    ∧ (if isGet
       then field data "webhookPath" = Some (JString (getInboundWebhookPath cfg startEnv))
       else field data "error" = Some (JString "method_not_allowed")).
Proof.
  intros Hpost run isGet. subst run isGet. unfold registerSmartleadWebhookRoute.
  unfold isPost in Hpost. rewrite Hpost.
  destruct (String.eqb _ "GET"); by eexists.
Qed.

End EarlyResponses.

(** ** Event types, candidate lists and the TTL *)






Section EventTypes.

Context {num : Type} {RT : JsRuntime num}.

Implicit Types (payload cfg : JsonObject num).






(** X12. The first non-empty string of a list of candidates: the result is
    empty exactly when every candidate is blank or not a string; otherwise
    it is the trimmed value of a candidate before which every candidate is
    blank or not a string. *)
Theorem firstNonEmptyString_spec (values : list (option (Json num))) (s : string) :
  firstNonEmptyString values = s
  ↔ (s = "" ∧ Forall (fun v => trimString v = "") values)
    ∨ (s ≠ "" ∧ ∃ before v after,
                  values = before ++ v :: after
                  ∧ Forall (fun u => trimString u = "") before
                  ∧ trimString v = s).
Proof.
  revert s. induction values as [|v rest IH]; intros s; simpl.
  - split.
    + intros <-. left. by split.
    + intros [[-> _]|[_ (before & u & after & Heq & _)]]; [done|].
      by destruct before.
  - destruct (Js.nonEmpty (trimString v)) eqn:Hv.
    + apply nonEmpty_true in Hv. split.
      * intros <-. right. split; [done|]. exists [], v, rest. by repeat split.
      * intros [[-> Hall]|[Hs (before & u & after & Heq & Hblank & Hu)]].
        { apply Forall_cons in Hall as [Hbad _]. done. }
        destruct before as [|b before]; simpl in Heq; injection Heq as Hhead Htail; subst.
        { done. }
        apply Forall_cons in Hblank as [Hbad _]. done.
    + apply nonEmpty_false in Hv. rewrite IH. split.
      * intros [[-> Hall]|[Hs (before & u & after & -> & Hblank & Hu)]].
        { left. split; [done|]. by constructor. }
        right. split; [done|]. exists (v :: before), u, after.
        split; [done|]. split; [by constructor|done].
      * intros [[-> Hall]|[Hs (before & u & after & Heq & Hblank & Hu)]].
        { left. split; [done|]. by apply Forall_cons in Hall as [_ ?]. }
        destruct before as [|b before]; simpl in Heq; injection Heq as Hhead Htail; subst.
        { congruence. }
        right. split; [done|]. exists before, u, after.
        split; [done|]. split; [|done]. by apply Forall_cons in Hblank as [_ ?].
Qed.

(** X13. The TTL of the cache is between one second and one day whatever the
    configuration and the environment hold; a number in the configuration
    outranks the environment, and without a number in either the TTL is 900
    seconds. *)
Theorem getDedupeTtlSeconds_range cfg (e : gmap string string) :
  1 ≤ getDedupeTtlSeconds cfg e ≤ 86400
  ∧ (∀ n, coerceNumber (get cfg "dedupeTtlSeconds") = Some n →
          getDedupeTtlSeconds cfg e = Z.max 1 (Z.min 86400 (floor n)))
  ∧ (coerceNumber (get cfg "dedupeTtlSeconds") = None →
     coerceNumber (envVar (num := num) e "SMARTLEAD_DEDUPE_TTL_SECONDS") = None →
     getDedupeTtlSeconds cfg e = 900).
Proof.
  unfold getDedupeTtlSeconds. split; [lia|]. split.
  - intros n Hn. by rewrite Hn.
  - intros Hcfg Henv. by rewrite Hcfg, Henv.
Qed.

End EventTypes.

(** X14. Pruning at a later time absorbs pruning at an earlier one, and
    pruning twice at one time is pruning once; what pruning keeps is part of
    the map, with the time stamps as they were. *)
Theorem prune_later_absorbs (ttlSeconds now1 now2 : Z) (seen : gmap string Z) :
  now1 ≤ now2 →
  pruneSeenWebhookEvents ttlSeconds now2 (pruneSeenWebhookEvents ttlSeconds now1 seen)
  = pruneSeenWebhookEvents ttlSeconds now2 seen
  ∧ pruneSeenWebhookEvents ttlSeconds now1 (pruneSeenWebhookEvents ttlSeconds now1 seen)
    = pruneSeenWebhookEvents ttlSeconds now1 seen
  ∧ pruneSeenWebhookEvents ttlSeconds now2 seen ⊆ pruneSeenWebhookEvents ttlSeconds now1 seen
  ∧ pruneSeenWebhookEvents ttlSeconds now1 seen ⊆ seen.
Proof.
  intros Hlater. unfold pruneSeenWebhookEvents.
  split; [|split; [|split]].
  - apply map_eq. intros key. apply option_eq. intros seenAt.
    rewrite !map_lookup_filter_Some. simpl. intuition lia.
  - apply map_eq. intros key. apply option_eq. intros seenAt.
    rewrite !map_lookup_filter_Some. simpl. intuition lia.
  - apply map_subseteq_spec. intros key seenAt.
    rewrite !map_lookup_filter_Some. simpl. intuition lia.
  - apply map_filter_subseteq.
Qed.

(** ** Keys, session keys and base URLs *)

Lemma length_append (a b : string) :
  String.length (a +:+ b) = (String.length a + String.length b)%nat.
Proof. induction a as [|c a IH]; simpl; [done|]. by rewrite IH. Qed.

Lemma allChars_append p (a b : string) :
  Text.allChars p (a +:+ b) = Text.allChars p a && Text.allChars p b.
Proof. induction a as [|c a IH]; simpl; [done|]. by rewrite IH, andb_assoc. Qed.

Lemma string_of_list_app (a b : list ascii) :
  string_of_list_ascii (a ++ b) = string_of_list_ascii a +:+ string_of_list_ascii b.
Proof. induction a as [|c a IH]; simpl; [done|]. by rewrite IH. Qed.

Lemma hexDigit_hex d : 0 ≤ d < 16 → Text.isLowerHex (Sha256.hexDigit d) = true.
Proof.
  intros Hd.
  assert (Hcases : d = 0 ∨ d = 1 ∨ d = 2 ∨ d = 3 ∨ d = 4 ∨ d = 5 ∨ d = 6 ∨ d = 7 ∨ d = 8
                   ∨ d = 9 ∨ d = 10 ∨ d = 11 ∨ d = 12 ∨ d = 13 ∨ d = 14 ∨ d = 15) by lia.
  repeat (destruct Hcases as [->|Hcases]; [reflexivity|]). by subst.
Qed.

Lemma hexWord_shape x :
  String.length (Sha256.hexWord x) = 8%nat
  ∧ Text.allChars Text.isLowerHex (Sha256.hexWord x) = true.
Proof.
  split; [reflexivity|]. unfold Sha256.hexWord.
  cbn [map string_of_list_ascii Text.allChars].
  rewrite !hexDigit_hex by (apply Z.mod_pos_bound; lia). reflexivity.
Qed.

(** The digest is sixty-four characters of [0-9a-f]. *)
Lemma digestHex_shape s :
  String.length (Sha256.digestHex s) = 64%nat
  ∧ Text.allChars Text.isLowerHex (Sha256.digestHex s) = true.
Proof.
  unfold Sha256.digestHex. cbv zeta. split.
  - rewrite !length_append.
    by repeat match goal with |- context [String.length (Sha256.hexWord ?x)] =>
                rewrite (proj1 (hexWord_shape x)) end.
  - rewrite !allChars_append.
    by repeat match goal with |- context [Text.allChars _ (Sha256.hexWord ?x)] =>
                rewrite (proj2 (hexWord_shape x)) end.
Qed.

Lemma isLowerHex_isKeyChar c : Text.isLowerHex c = true → Text.isKeyChar c = true.
Proof. destruct c as [[] [] [] [] [] [] [] []]; by vm_compute. Qed.

Lemma allChars_impl (p q : ascii → bool) s :
  (∀ c, p c = true → q c = true) → Text.allChars p s = true → Text.allChars q s = true.
Proof.
  intros Himpl. induction s as [|c s IH]; simpl; [done|].
  intros [Hc Hs]%andb_true_iff. by rewrite (Himpl c Hc), IH.
Qed.

Lemma sliceTo_length n s : String.length (Text.sliceTo n s) = Nat.min n (String.length s).
Proof.
  revert s. induction n as [|n IH]; intros [|c s]; simpl; try done. by rewrite IH.
Qed.

Lemma sliceTo_allChars p n s :
  Text.allChars p s = true → Text.allChars p (Text.sliceTo n s) = true.
Proof.
  revert s. induction n as [|n IH]; intros [|c s]; simpl; try done.
  intros [Hc Hs]%andb_true_iff. by rewrite Hc, IH.
Qed.

Lemma sliceTo_short n s : (String.length s <= n)%nat → Text.sliceTo n s = s.
Proof.
  revert s. induction n as [|n IH]; intros [|c s]; simpl; try done.
  - intros Hlen. exfalso. lia.
  - intros Hlen. rewrite IH; [done|lia].
Qed.

Lemma sliceTo_nonEmpty n s : s ≠ "" → Text.sliceTo (S n) s ≠ "".
Proof. by destruct s. Qed.

Lemma replaceOthers_allChars inRun s :
  Text.allChars Text.isKeyChar (Text.replaceOthers inRun s) = true.
Proof.
  revert inRun. induction s as [|c s IH]; intros inRun; simpl; [done|].
  destruct (Text.isKeyChar c) eqn:Hc; simpl; [by rewrite Hc, IH|].
  destruct inRun; simpl; by rewrite IH.
Qed.

Lemma replaceOthers_clean inRun s :
  Text.allChars Text.isKeyChar s = true → Text.replaceOthers inRun s = s.
Proof.
  revert inRun. induction s as [|c s IH]; intros inRun; simpl; [done|].
  intros [Hc Hs]%andb_true_iff. by rewrite Hc, IH.
Qed.

Lemma replaceOthers_nonEmpty s : s ≠ "" → Text.replaceOthers false s ≠ "".
Proof. destruct s as [|c s]; simpl; [done|]. by destruct (Text.isKeyChar c). Qed.

Lemma dropSlashes_split l :
  ∃ slashes, l = slashes ++ Text.dropSlashes l
             ∧ Forall (fun c => c = ascii_of_N 47) slashes
             ∧ (if Text.dropSlashes l is c :: _ then Js.code c =? 47 else false) = false.
Proof.
  induction l as [|c l (slashes & Hsplit & Hall & Hhead)]; simpl.
  - by exists [].
  - destruct (Js.code c =? 47) eqn:Hc.
    + exists (c :: slashes). split; [by rewrite <- app_comm_cons, <- Hsplit|].
      split; [|done]. constructor; [|done].
      apply Z.eqb_eq in Hc. unfold Js.code in Hc.
      assert (Hn : N_of_ascii c = 47%N) by lia.
      by rewrite <- (ascii_N_embedding c), Hn.
    + exists []. by rewrite Hc.
Qed.

Section Keys.

Context {num : Type} {RT : JsRuntime num}.

Implicit Types (payload cfg : JsonObject num).

(** X15. The deduplication key is sixty-four characters of [0-9a-f],
    whatever the context holds. *)
Theorem makeWebhookEventKey_shape (ctx : ReplyWebhookContext (num := num)) :
  String.length (makeWebhookEventKey ctx) = 64%nat
  ∧ Text.allChars Text.isLowerHex (makeWebhookEventKey ctx) = true.
Proof. apply digestHex_shape. Qed.

Lemma sanitize_length (input : string) :
  (String.length (sanitizeSessionKeyPart input) <= 80)%nat.
Proof. unfold sanitizeSessionKeyPart. rewrite sliceTo_length. lia. Qed.

Lemma sanitize_allChars (input : string) :
  Text.allChars Text.isKeyChar (sanitizeSessionKeyPart input) = true.
Proof. apply sliceTo_allChars, replaceOthers_allChars. Qed.

Lemma sanitize_clean (input : string) :
  Text.allChars Text.isKeyChar input = true → (String.length input <= 80)%nat →
  sanitizeSessionKeyPart input = input.
Proof.
  intros Hs Hshort. unfold sanitizeSessionKeyPart.
  by rewrite replaceOthers_clean, sliceTo_short.
Qed.

Lemma sanitize_empty (input : string) :
  sanitizeSessionKeyPart input = "" → input = "".
Proof.
  intros Hempty. destruct input as [|c rest]; [reflexivity|]. exfalso.
  unfold sanitizeSessionKeyPart in Hempty.
  assert (Hne : String c rest ≠ "") by discriminate.
  exact (sliceTo_nonEmpty 79 _ (replaceOthers_nonEmpty _ Hne) Hempty).
Qed.

(** X16. [sanitizeSessionKeyPart] yields at most eighty characters, all of
    [a-zA-Z0-9:_-]; it keeps a string that is already so, hence changes
    nothing when applied twice, and it yields the empty string for the
    empty string only. *)
Theorem sanitizeSessionKeyPart_safe (input : string) :
  (String.length (sanitizeSessionKeyPart input) <= 80)%nat
  ∧ Text.allChars Text.isKeyChar (sanitizeSessionKeyPart input) = true
  ∧ (Text.allChars Text.isKeyChar input = true → (String.length input <= 80)%nat →
     sanitizeSessionKeyPart input = input)
  ∧ sanitizeSessionKeyPart (sanitizeSessionKeyPart input) = sanitizeSessionKeyPart input
  ∧ (sanitizeSessionKeyPart input = "" ↔ input = "").
Proof.
  split; [apply sanitize_length|]. split; [apply sanitize_allChars|].
  split; [apply sanitize_clean|].
  split; [apply sanitize_clean; [apply sanitize_allChars|apply sanitize_length]|].
  split; [apply sanitize_empty|]. intros Hempty. by rewrite Hempty.
Qed.

(** X17. The session key of a forwarded event is the configured prefix, or
    the default one, followed by a part that is never empty, holds at most
    eighty characters, all of [a-zA-Z0-9:_-]; without a stats id and a
    message id the part is the first sixteen characters of the
    deduplication key. *)
Theorem buildHookSessionKey_shape cfg (ctx : ReplyWebhookContext (num := num)) :
  ∃ part,
    buildHookSessionKey cfg ctx
    = Js.orElse (trimString (get cfg "hookSessionKeyPrefix")) "hook:smartlead:reply:" +:+ part
    ∧ part ≠ ""
    ∧ (String.length part <= 80)%nat
    ∧ Text.allChars Text.isKeyChar part = true
    ∧ (truthyString (statsId ctx) = false → truthyString (messageId ctx) = false →
       part = Text.sliceTo 16 (makeWebhookEventKey ctx) ∧ String.length part = 16%nat).
Proof.
  exists (sanitizeSessionKeyPart (sessionKeySource ctx)).
  destruct (digestHex_shape (eventKeyBase ctx)) as (Hkeylen & Hkeychars).
  fold (makeWebhookEventKey ctx) in Hkeylen, Hkeychars.
  assert (Hslice : String.length (Text.sliceTo 16 (makeWebhookEventKey ctx)) = 16%nat).
  { by rewrite sliceTo_length, Hkeylen. }
  split; [reflexivity|]. split.
  - intros Hempty. apply sanitize_empty in Hempty. revert Hempty.
    unfold sessionKeySource, truthyString.
    destruct (statsId ctx) as [[|? ?]|]; simpl; try discriminate;
      destruct (messageId ctx) as [[|? ?]|]; simpl; try discriminate;
      intros Hnil; by rewrite Hnil in Hslice.
  - split; [apply sanitize_length|]. split; [apply sanitize_allChars|].
    intros Hstats Hmessage.
    unfold sessionKeySource. rewrite Hstats, Hmessage.
    rewrite sanitize_clean; [by split| |lia].
    apply sliceTo_allChars.
    by apply (allChars_impl Text.isLowerHex Text.isKeyChar _ isLowerHex_isKeyChar).
Qed.

(** X18. [normalizeBaseUrl] removes white space around the URL and then
    nothing but slashes at its end: the result never ends with a slash, and
    a blank URL gives the default base URL. The base URL of the plugin never
    ends with a slash. *)
Theorem normalizeBaseUrl_no_trailing_slash (value : string) cfg (e : gmap string string) :
  Text.endsWithSlash (normalizeBaseUrl value) = false
  ∧ (Js.trim value = "" → normalizeBaseUrl value = "https://server.smartlead.ai/api/v1")
  ∧ (Js.trim value ≠ "" →
     ∃ slashes, Js.trim value = normalizeBaseUrl value +:+ slashes
                ∧ Text.allChars (fun c => Js.code c =? 47) slashes = true)
  ∧ Text.endsWithSlash (getSmartleadBaseUrl cfg e) = false.
Proof.
  assert (Hend : ∀ v, Text.endsWithSlash (normalizeBaseUrl v) = false).
  { intros v. unfold normalizeBaseUrl.
    destruct (Js.nonEmpty (Js.trim v)); cbn [negb]; [|reflexivity].
    unfold Text.endsWithSlash, Text.stripTrailingSlashes.
    rewrite list_ascii_of_string_of_list_ascii, rev_involutive.
    by destruct (dropSlashes_split (List.rev (list_ascii_of_string (Js.trim v))))
      as (_ & _ & _ & Hhead). }
  split; [apply Hend|]. split; [|split; [|apply Hend]].
  - intros Hblank. unfold normalizeBaseUrl. by rewrite Hblank.
  - intros Hfull. unfold normalizeBaseUrl. apply nonEmpty_true in Hfull. rewrite Hfull.
    cbn [negb]. unfold Text.stripTrailingSlashes.
    destruct (dropSlashes_split (List.rev (list_ascii_of_string (Js.trim value))))
      as (slashes & Hsplit & Hall & _).
    exists (string_of_list_ascii (List.rev slashes)). split.
    + rewrite <- string_of_list_app, <- rev_app_distr, <- Hsplit, rev_involutive.
      by rewrite string_of_list_ascii_of_string.
    + clear Hsplit. apply Forall_rev in Hall.
      induction Hall as [|c l -> _ IH]; simpl; [done|]. by rewrite IH.
Qed.

End Keys.

(** ** Responses and the outcome of the forward call *)


Section Responses.

Context {num : Type} {RT : JsRuntime num}.

Implicit Types (payload cfg : JsonObject num).




End Responses.

(** ** The further properties at concrete requests, on the sample runtime *)


Lemma stopped_request_leaves_cache_witness :
  let w := Sample.world 1000000 Sample.answering in
  let run := registerSmartleadWebhookRoute Sample.openConfig ∅ Cases.getRequest w Cases.agedCache in
  (∀ payload, ¬ reachesDedup Sample.openConfig Cases.getRequest w payload)
  ∧ run.2 = Cases.agedCache ∧ fetches run.1 = [] ∧ cacheWrites run.1 = [].
Proof.
  intros w run.
  assert (Hstopped : ∀ payload, ¬ reachesDedup Sample.openConfig Cases.getRequest w payload).
  { intros payload (Hpost & _). vm_compute in Hpost. discriminate. }
  split; [exact Hstopped|].
  exact (stopped_request_leaves_cache Sample.openConfig ∅ Cases.getRequest w Cases.agedCache
           Hstopped).
Defined.

Lemma window_starts_at_first_delivery_witness :
  let w1 := Sample.world 1000 Sample.answering in
  let w2 := Sample.world 900000 Sample.answering in
  let w3 := Sample.world 901001 Sample.answering in
  let req := Sample.replyRequest in
  let first := registerSmartleadWebhookRoute Sample.openConfig ∅ req w1 ∅ in
  let second := registerSmartleadWebhookRoute Sample.openConfig ∅ req w2 first.2 in
  let third := registerSmartleadWebhookRoute Sample.openConfig ∅ req w3 second.2 in
  withinTtl Sample.openConfig w2 1000
  ∧ ¬ withinTtl Sample.openConfig w3 1000
  ∧ withinTtl Sample.openConfig w3 900000
  ∧ statuses second.1 = [200]
  ∧ cacheWrites third.1 = [(keyOf Sample.replyPayload, 901001)]
  ∧ fetches third.1 ≠ [].
Proof.
  intros w1 w2 w3 req first second third.
  assert (Hreach1 : reachesDedup Sample.openConfig req w1 Sample.replyPayload) by reaches.
  assert (Hreach2 : reachesDedup Sample.openConfig req w2 Sample.replyPayload) by reaches.
  assert (Hreach3 : reachesDedup Sample.openConfig req w3 Sample.replyPayload) by reaches.
  assert (Hfresh : fresh Sample.openConfig w1 ∅ Sample.replyPayload) by evaluate.
  assert (Hin : withinTtl Sample.openConfig w2 (nowSeen w1)) by (vm_compute; discriminate).
  assert (Hout : ¬ withinTtl Sample.openConfig w3 (nowSeen w1)).
  { intros Hle. vm_compute in Hle. by apply Hle. }
  destruct (window_starts_at_first_delivery Sample.openConfig ∅ Sample.replyPayload
              req w1 req w2 req w3 ∅ Hreach1 Hreach2 Hreach3 Hfresh Hin Hout)
    as (Hsecond & _ & Hwrite & _ & Hfetch & _).
  split; [exact Hin|]. split; [exact Hout|]. split; [vm_compute; discriminate|].
  split; [exact Hsecond|]. split; [exact Hwrite|].
  fold first second third in Hfetch. rewrite Hfetch. vm_compute. discriminate.
Defined.

Lemma bad_request_iff_witness :
  let req := Sample.post [] [] "{" in
  let run := registerSmartleadWebhookRoute Sample.openConfig ∅ req
               (Sample.world 1000 Sample.answering) Cases.agedCache in
  isPost req = true
  ∧ (400 ∈ statuses run.1
     ↔ MAX_WEBHOOK_BODY_BYTES < bodySize (chunks req)
       ∨ (Js.trim (bodyText (chunks req)) ≠ ""
          ∧ ∃ message, JSON_parse (bodyText (chunks req)) = SyntaxError message)).
Proof.
  intros req run.
  assert (Hpost : isPost req = true) by evaluate.
  split; [exact Hpost|].
  exact (proj1 (bad_request_iff Sample.openConfig ∅ req (Sample.world 1000 Sample.answering)
                  Cases.agedCache Hpost)).
Defined.

Lemma other_methods_answered_witness :
  let w := Sample.world 1000 Sample.answering in
  isPost Cases.getRequest = false
  ∧ ∃ data,
      registerSmartleadWebhookRoute Sample.secretConfig ∅ Cases.getRequest w Cases.agedCache
      = ([SendJson 200 data], Cases.agedCache)
      ∧ field data "webhookPath" = Some (JString "/smartlead/webhook").
Proof.
  intros w.
  assert (Hpost : isPost Cases.getRequest = false) by evaluate.
  split; [exact Hpost|].
  exact (other_methods_answered Sample.secretConfig ∅ Cases.getRequest w Cases.agedCache Hpost).
Defined.



Lemma prune_later_absorbs_witness :
  1000000 ≤ 2000000
  ∧ pruneSeenWebhookEvents 900 2000000 (pruneSeenWebhookEvents 900 1000000 Cases.agedCache)
    = pruneSeenWebhookEvents 900 2000000 Cases.agedCache
  ∧ pruneSeenWebhookEvents 900 1000000 Cases.agedCache ⊆ Cases.agedCache.
Proof.
  assert (Hlater : 1000000 ≤ 2000000) by lia.
  destruct (prune_later_absorbs 900 1000000 2000000 Cases.agedCache Hlater)
    as (Habsorb & _ & _ & Hpart).
  split; [exact Hlater|]. split; [exact Habsorb|exact Hpart].
Defined.


